(** * QExPy: configuration store, measurement factory and value printing

    A shallow embedding of [qexpy/settings/settings.py] and
    [qexpy/data/data.py].  The code is dynamically typed Python that
    mutates a module-level dictionary, allocates objects, prints to the
    standard output and raises exceptions; the embedding keeps all of
    that: Python values are one inductive type, and every function runs
    in a state-and-exception monad over the interpreter state (the
    [config] dictionary, the lines printed so far and the object heap). *)

From Stdlib Require Import ZArith String Ascii List Bool Lia.
From Stdlib.Floats Require Import SpecFloat.
From stdpp Require Import base option gmap strings list fin_maps.

Set Warnings "-register-all".
Open Scope string_scope.
Open Scope Z_scope.

(** ** The enumerations of [settings.py] *)

Inductive ErrorMethod : Set := DERIVATIVE | MIN_MAX | MONTE_CARLO.
Inductive PrintStyle : Set := DEFAULT | LATEX | SCIENTIFIC.
Inductive SigFigMode : Set := AUTOMATIC | VALUE | ERROR.

(** The [.value] of each enumeration member, as written in the class bodies. *)
Definition ErrorMethod_value (m : ErrorMethod) : string :=
  match m with
  | DERIVATIVE => "derivative"
  | MIN_MAX => "min_max"
  | MONTE_CARLO => "monte_carlo"
  end.

Definition PrintStyle_value (s : PrintStyle) : string :=
  match s with
  | DEFAULT => "default"
  | LATEX => "latex"
  | SCIENTIFIC => "scientific"
  end.

Definition SigFigMode_value (m : SigFigMode) : string :=
  match m with
  | AUTOMATIC => "automatic"
  | VALUE => "value"
  | ERROR => "error"
  end.

(** ** Python values *)

(** Heap addresses of class instances. *)
Abbreviation loc := positive.

(** Python floats are IEEE 754 binary64 numbers: [spec_float] with
    [prec = 53] and [emax = 1024].  A [str] is a sequence of code points
    below 256; a [dict] has [str] keys, which is all the code uses. *)
Inductive pyval : Type :=
| PyNone
| PyBool (b : bool)
| PyInt (n : Z)
| PyFloat (f : spec_float)
| PyStr (s : string)
| PyTuple (items : list pyval)
| PyList (items : list pyval)
| PyDict (d : gmap string pyval)
| PyNdarray (items : list pyval)
| PyErrorMethod (m : ErrorMethod)
| PyPrintStyle (s : PrintStyle)
| PySigFigMode (m : SigFigMode)
| PyRef (l : loc).

(** The empty string, the default of the parameters [unit] and [name]. *)
Definition empty_str : pyval := PyStr EmptyString.

(** The exceptions that the modelled code can meet. *)
Inductive exn : Type :=
| KeyError (key : pyval)
| IndexError
| TypeError
| ValueError
| OverflowError
| AttributeError (attr : string).

Inductive result (A : Type) : Type :=
| Ok (a : A)
| Raise (e : exn).
Arguments Ok {A} a.
Arguments Raise {A} e.

(** ** Classes of [data.py] *)

Inductive pyclass : Set :=
| ExperimentalValue
| MeasuredValue
| RepeatedlyMeasuredValue
| Function
| Constant.

Global Instance pyclass_eq_dec : EqDecision pyclass.
Proof. solve_decision. Defined.

(** The base class written in each [class] statement; [None] is [object]. *)
Definition tp_base (c : pyclass) : option pyclass :=
  match c with
  | ExperimentalValue => None
  | MeasuredValue => Some ExperimentalValue
  | RepeatedlyMeasuredValue => Some MeasuredValue
  | Function => Some ExperimentalValue
  | Constant => Some ExperimentalValue
  end.

(** The [__slots__] declaration of each class body; [None] when the class
    has none, in which case its instances get a [__dict__]. *)
Definition declared_slots (c : pyclass) : option (list string) :=
  match c with
  | ExperimentalValue => Some ["_values"; "_unit"; "_name"]
  | MeasuredValue => None
  | RepeatedlyMeasuredValue => Some ["_raw_data"]
  | Function => Some ["_error_method"; "_is_error_method_specified"]
  | Constant => None
  end.

(** Method resolution order (single inheritance). *)
Definition mro (c : pyclass) : list pyclass :=
  match c with
  | ExperimentalValue => [ExperimentalValue]
  | MeasuredValue => [MeasuredValue; ExperimentalValue]
  | RepeatedlyMeasuredValue =>
      [RepeatedlyMeasuredValue; MeasuredValue; ExperimentalValue]
  | Function => [Function; ExperimentalValue]
  | Constant => [Constant; ExperimentalValue]
  end.

Definition issubclass (c d : pyclass) : bool := bool_decide (d ∈ mro c).

Definition slot_names (c : pyclass) : list string :=
  flat_map (fun k => default [] (declared_slots k)) (mro c).

Definition has_slot (c : pyclass) (attr : string) : bool :=
  bool_decide (attr ∈ slot_names c).

Definition has_dict (c : pyclass) : bool :=
  existsb (fun k => bool_decide (declared_slots k = None)) (mro c).

(** An instance: its class, the contents of its slots (an unset slot has
    no entry) and its [__dict__] (unused when the class has none). *)
Record object : Type := mkObject {
  ob_type : pyclass;
  ob_slots : gmap string pyval;
  ob_dict : gmap string pyval
}.

(** *** Layout compatibility for [__class__] assignment

    CPython accepts [obj.__class__ = new] only when both classes have the
    same instance layout.  A class changes the layout of its base when it
    declares a non-empty [__slots__], or when it is the first class of its
    chain without [__slots__] (it then adds [__dict__] and [__weakref__]).
    Each class is walked up to the nearest class that changes the layout;
    the two classes found must be the same, or extend the same base by the
    same slots. *)
Definition extends_layout (c : pyclass) : bool :=
  match declared_slots c with
  | Some names => negb (bool_decide (names = []))
  | None => negb (from_option has_dict false (tp_base c))
  end.

Definition solid_class (c : pyclass) : pyclass :=
  default c (head (filter (fun k => extends_layout k = true) (mro c))).

Definition same_slots_added (a b : pyclass) : bool :=
  bool_decide (declared_slots a = declared_slots b).

Definition compatible_for_assignment (old new : pyclass) : bool :=
  let oldbase := solid_class old in
  let newbase := solid_class new in
  bool_decide (newbase = oldbase)
  || (bool_decide (tp_base newbase = tp_base oldbase)
      && same_slots_added newbase oldbase).

(** ** Interpreter state and the monad *)

Record state : Type := mkState {
  config : gmap string pyval;   (* the module-level dict of settings.py *)
  stdout : list string;         (* what [print] has written, oldest first *)
  heap : gmap loc object        (* the instances allocated so far *)
}.

Definition M (A : Type) : Type := state -> result A * state.

Global Instance M_ret : MRet M := fun A a σ => (Ok a, σ).
Global Instance M_bind : MBind M := fun A B f m σ =>
  match m σ with
  | (Ok a, σ') => f a σ'
  | (Raise e, σ') => (Raise e, σ')
  end.

Definition raise {A} (e : exn) : M A := fun σ => (Raise e, σ).

(** Lifting of a computation that touches no state. *)
Definition lift {A} (r : result A) : M A := fun σ => (r, σ).

(** [try: body except <handled>: handler]; [handles e] tells whether the
    [except] clause matches.  What the body did before raising stays done. *)
Definition try_except {A} (body : M A) (handles : exn -> bool) (handler : M A)
  : M A := fun σ =>
  match body σ with
  | (Ok a, σ') => (Ok a, σ')
  | (Raise e, σ') => if handles e then handler σ' else (Raise e, σ')
  end.

Definition newline : string := String "010" EmptyString.

(** [print(s)] *)
Definition printed (s : string) (σ : state) : state :=
  mkState (config σ) (stdout σ ++ [s]) (heap σ).

Definition print (s : string) : M unit := fun σ => (Ok tt, printed s σ).

(** ** Built-in operations on values *)

(** Type tags for [isinstance]. *)
Inductive pytype : Set :=
| t_NoneType | t_bool | t_int | t_float | t_str | t_tuple | t_list | t_dict
| t_ndarray | t_ErrorMethod | t_PrintStyle | t_SigFigMode
| t_class (c : pyclass).

Global Instance pytype_eq_dec : EqDecision pytype.
Proof. solve_decision. Defined.

(** [type(v)]; an instance needs the heap to find its class. *)
Definition type_of (h : gmap loc object) (v : pyval) : option pytype :=
  match v with
  | PyNone => Some t_NoneType
  | PyBool _ => Some t_bool
  | PyInt _ => Some t_int
  | PyFloat _ => Some t_float
  | PyStr _ => Some t_str
  | PyTuple _ => Some t_tuple
  | PyList _ => Some t_list
  | PyDict _ => Some t_dict
  | PyNdarray _ => Some t_ndarray
  | PyErrorMethod _ => Some t_ErrorMethod
  | PyPrintStyle _ => Some t_PrintStyle
  | PySigFigMode _ => Some t_SigFigMode
  | PyRef l => (fun o => t_class (ob_type o)) <$> h !! l
  end.

(** [issubclass] on type tags: [bool] derives from [int]. *)
Definition subtype (t u : pytype) : bool :=
  match t, u with
  | t_bool, t_int => true
  | t_class c, t_class d => issubclass c d
  | _, _ => bool_decide (t = u)
  end.

(** [isinstance(v, types)] with a tuple of types. *)
Definition has_type (h : gmap loc object) (v : pyval) (types : list pytype)
  : bool :=
  from_option (fun t => existsb (subtype t) types) false (type_of h v).

Definition isinstance (v : pyval) (types : list pytype) : M bool := fun σ =>
  (Ok (has_type (heap σ) v types), σ).

(** *** Floats *)

Definition prec : Z := 53.
Definition emax : Z := 1024.

Definition float_inf : spec_float := S754_infinity false.   (* float('inf') *)
Definition float_zero : spec_float := S754_zero false.

(** Nearest binary64 to an integer (ties to even). *)
Definition float_of_Z (n : Z) : spec_float :=
  binary_normalize prec emax n 0 false.

(** Truncation towards zero of a finite float. *)
Definition Z_of_float (f : spec_float) : option Z :=
  match f with
  | S754_zero _ => Some 0
  | S754_finite s m e =>
      let q := Z.shiftl (Zpos m) e in Some (if s then - q else q)
  | S754_infinity _ | S754_nan => None
  end.

(** [float(v)].  The code applies it to instances of [NUMBER_TYPES] only;
    on other values the model keeps the failure and not the parsing of
    float literals held in strings. *)
Definition py_float (v : pyval) : result pyval :=
  match v with
  | PyFloat f => Ok (PyFloat f)
  | PyInt n =>
      match float_of_Z n with
      | S754_infinity _ => Raise OverflowError
      | f => Ok (PyFloat f)
      end
  | PyBool b => Ok (PyFloat (float_of_Z (if b then 1 else 0)))
  | PyStr _ => Raise ValueError
  | _ => Raise TypeError
  end.

(** *** [int(v)] *)

(** The white space that [int()] skips at both ends of a string, among
    the code points below 256: tab, line feed, vertical tab, form feed,
    carriage return and space, and the two non-ASCII spaces U+0085 and
    U+00A0.  The separators U+001C to U+001F are not skipped. *)
Definition is_space (c : ascii) : bool :=
  let n := Z.of_N (N_of_ascii c) in
  (((9 <=? n) && (n <=? 13)) || (n =? 32) || (n =? 133) || (n =? 160))%Z.

Definition digit_of (c : ascii) : option Z :=
  let n := Z.of_N (N_of_ascii c) in
  if ((48 <=? n) && (n <=? 57))%Z then Some (n - 48) else None.

Fixpoint lstrip (cs : list ascii) : list ascii :=
  match cs with
  | c :: rest => if is_space c then lstrip rest else cs
  | [] => []
  end.

Definition strip (cs : list ascii) : list ascii :=
  rev (lstrip (rev (lstrip cs))).

(** Decimal digits, a single underscore allowed between two digits.
    [need_digit] holds at the start and right after an underscore. *)
Fixpoint parse_digits (acc : Z) (need_digit : bool) (cs : list ascii)
  : option Z :=
  match cs with
  | [] => if need_digit then None else Some acc
  | c :: rest =>
      match digit_of c with
      | Some d => parse_digits (10 * acc + d) false rest
      | None =>
          if Ascii.eqb c "_" && negb need_digit
          then parse_digits acc true rest
          else None
      end
  end.

(** The default of [sys.int_max_str_digits]: [int()] refuses a string
    with more digits (CPython 3.11 and later, and the patched earlier
    releases). *)
Definition int_max_str_digits : nat := 4300.

(** The digits counted against the limit: neither the sign, nor the
    underscores, nor the white space. *)
Definition count_digits (cs : list ascii) : nat :=
  length (filter (fun c => is_Some (digit_of c)) cs).

(** [int(s)] for a string, base 10: optional sign, then digits, at most
    [int_max_str_digits] of them. *)
Definition int_of_str (s : string) : option Z :=
  let cs := strip (list_ascii_of_string s) in
  if (int_max_str_digits <? count_digits cs)%nat then None
  else
    match cs with
    | "-"%char :: ds => Z.opp <$> parse_digits 0 true ds
    | "+"%char :: ds => parse_digits 0 true ds
    | ds => parse_digits 0 true ds
    end.

Definition int_of_number (v : pyval) : result Z :=
  match v with
  | PyInt n => Ok n
  | PyBool b => Ok (if b then 1 else 0)
  | PyFloat f =>
      match f with
      | S754_nan => Raise ValueError
      | S754_infinity _ => Raise OverflowError
      | _ => Ok (default 0 (Z_of_float f))
      end
  | _ => Raise TypeError
  end.

(** [int(v)]: numbers are truncated, strings are parsed, an array of one
    number converts as that number, anything else is a [TypeError]. *)
Definition py_int (v : pyval) : result Z :=
  match v with
  | PyStr s => from_option Ok (Raise ValueError) (int_of_str s)
  | PyNdarray [x] => int_of_number x
  | _ => int_of_number v
  end.

(** *** Truth value, comparison with a float, subscripting *)

(** [bool(v)] as taken by [if]; instances of the classes of [data.py]
    define neither [__bool__] nor [__len__] and are true. *)
Definition py_bool (v : pyval) : result bool :=
  match v with
  | PyNone => Ok false
  | PyBool b => Ok b
  | PyInt n => Ok (negb (n =? 0))
  | PyFloat f => Ok (negb (SFeqb f float_zero))
  | PyStr s => Ok (negb (String.eqb s EmptyString))
  | PyTuple l | PyList l => Ok (negb (bool_decide (length l = 0%nat)))
  | PyDict d => Ok (negb (bool_decide (size d = 0%nat)))
  | PyNdarray [] => Ok false
  | PyNdarray [x] =>
      match x with
      | PyBool b => Ok b
      | PyInt n => Ok (negb (n =? 0))
      | PyFloat f => Ok (negb (SFeqb f float_zero))
      | _ => Raise ValueError
      end
  | PyNdarray _ => Raise ValueError
  | PyErrorMethod _ | PyPrintStyle _ | PySigFigMode _ => Ok true
  | PyRef _ => Ok true
  end.

(** [v == f] for a float [f]: numbers compare by value, every other
    scalar or container differs from a float. *)
Definition eq_float (v : pyval) (f : spec_float) : bool :=
  match v with
  | PyFloat g => SFeqb g f
  | PyInt n => SFeqb (float_of_Z n) f && bool_decide (Z_of_float f = Some n)
  | PyBool b => SFeqb (float_of_Z (if b then 1 else 0)) f
  | _ => false
  end.

(** The truth value of [v == f] as tested by [if]; an array compares
    element by element and has a truth value only when it has at most
    one element. *)
Definition py_eq_float (v : pyval) (f : spec_float) : result bool :=
  match v with
  | PyNdarray [] => Ok false
  | PyNdarray [x] => Ok (eq_float x f)
  | PyNdarray _ => Raise ValueError
  | _ => Ok (eq_float v f)
  end.

(** [v > 0] *)
Definition py_gt_zero (v : pyval) : result bool :=
  match v with
  | PyInt n => Ok (0 <? n)%Z
  | PyBool b => Ok b
  | PyFloat f => Ok (SFltb float_zero f)
  | _ => Raise TypeError
  end.

Definition hashable (v : pyval) : bool :=
  match v with
  | PyList _ | PyDict _ | PyNdarray _ => false
  | _ => true
  end.

(** [container[key]] *)
Definition index_of (n : nat) (key : pyval) : result nat :=
  match key with
  | PyInt i =>
      let j := if (i <? 0)%Z then i + Z.of_nat n else i in
      if ((j <? 0) || (Z.of_nat n <=? j))%Z then Raise IndexError
      else Ok (Z.to_nat j)
  | PyBool b =>
      let j := (if b then 1 else 0)%nat in
      if (j <? n)%nat then Ok j else Raise IndexError
  | _ => Raise TypeError
  end.

Definition py_getitem (container key : pyval) : result pyval :=
  match container with
  | PyDict d =>
      match key with
      | PyStr k => from_option Ok (Raise (KeyError key)) (d !! k)
      | _ => if hashable key then Raise (KeyError key) else Raise TypeError
      end
  | PyTuple l | PyList l | PyNdarray l =>
      match index_of (length l) key with
      | Ok j => from_option Ok (Raise IndexError) (l !! j)
      | Raise e => Raise e
      end
  | PyStr s =>
      match index_of (String.length s) key with
      | Ok j =>
          from_option (fun c => Ok (PyStr (String c EmptyString)))
            (Raise IndexError) (String.get j s)
      | Raise e => Raise e
      end
  | _ => Raise TypeError
  end.

(** ** [settings/literals.py] *)

(** Modelled from the spec: the key constants imported from
    [settings/literals.py], which is not among the sources.  The spec
    gives the store as [{error_method, print_style, significant_figures:
    {mode, value}}], the keys the [config] literal of [settings.py] is
    written with. *)
Definition ERROR_METHOD : string := "error_method".
Definition PRINT_STYLE : string := "print_style".
Definition SIG_FIGS : string := "significant_figures".
Definition SIG_FIG_MODE : string := "mode".
Definition SIG_FIG_VALUE : string := "value".

(** Modelled from the spec: the tag [RECORDED] of [settings/literals.py];
    a directly recorded pair is tagged "recorded". *)
Definition RECORDED : string := "recorded".

(** ** [settings/settings.py] *)

(** The [config] literal. *)
Definition initial_config : gmap string pyval :=
  {[ "error_method" := PyErrorMethod DERIVATIVE;
     "print_style" := PyPrintStyle DEFAULT;
     "significant_figures" :=
       PyDict {[ "mode" := PySigFigMode AUTOMATIC; "value" := PyInt 1 ]} ]}.

(** The interpreter right after the modules are imported. *)
Definition initial_state : state := mkState initial_config [] ∅.

(** [config[key]] *)
Definition config_getitem (key : string) : M pyval := fun σ =>
  (from_option Ok (Raise (KeyError (PyStr key))) (config σ !! key), σ).

(** [config[key] = v] *)
Definition config_setitem (key : string) (v : pyval) : M unit := fun σ =>
  (Ok tt, mkState (<[key := v]> (config σ)) (stdout σ) (heap σ)).

(** [config[key][sub] = v]: the inner dictionary is updated in place; it
    is referenced from [config] only. *)
Definition config_setitem2 (key sub : string) (v : pyval) : M unit :=
  inner ← config_getitem key;
  match inner with
  | PyDict d => config_setitem key (PyDict (<[sub := v]> d))
  | _ => raise TypeError
  end.

Definition reset_default_configuration : M unit :=
  config_setitem ERROR_METHOD (PyErrorMethod DERIVATIVE);;
  config_setitem PRINT_STYLE (PyPrintStyle DEFAULT);;
  config_setitem2 SIG_FIGS SIG_FIG_MODE (PySigFigMode AUTOMATIC);;
  config_setitem2 SIG_FIGS SIG_FIG_VALUE (PyInt 1).

(** The texts printed by the setters. *)
Definition error_method_message : string :=
  "Error: the error methods supported are derivative, min-max, and monte carlo."
  ++ newline ++ "These values are found under the enum settings.ErrorMethod".
Definition print_style_message : string :=
  "Error: the print styles supported are default, latex, and scientific."
  ++ newline ++ "These values are found under the enum settings.PrintStyle".
Definition sig_figs_value_message : string :=
  "Error: the number of significant figures has to be an integer greater than 0".
Definition sig_figs_error_message : string :=
  "Error: the number of significant figures has to be an integer".

Definition set_error_method (new_method : pyval) : M unit :=
  ok ← isinstance new_method [t_ErrorMethod];
  if negb ok then
    print error_method_message
  else
    config_setitem ERROR_METHOD new_method.

Definition get_error_method : M pyval := config_getitem ERROR_METHOD.

Definition set_print_style (new_style : pyval) : M unit :=
  ok ← isinstance new_style [t_PrintStyle];
  if negb ok then
    print print_style_message
  else
    config_setitem ERROR_METHOD new_style.

Definition get_print_style : M pyval := config_getitem PRINT_STYLE.

Definition get_sig_fig_mode : M pyval :=
  inner ← config_getitem SIG_FIGS;
  lift (py_getitem inner (PyStr SIG_FIG_MODE)).

Definition get_sig_fig_value : M pyval :=
  inner ← config_getitem SIG_FIGS;
  lift (py_getitem inner (PyStr SIG_FIG_VALUE)).

(** [except (ValueError, TypeError)] *)
Definition ValueError_or_TypeError (e : exn) : bool :=
  match e with
  | ValueError | TypeError => true
  | _ => false
  end.

Definition set_sig_figs_for_value (new_sig_figs : pyval) : M unit :=
  try_except
    (sig_figs ← lift (py_int new_sig_figs);
     (if sig_figs <=? 0 then raise ValueError else mret tt);;
     config_setitem2 SIG_FIGS SIG_FIG_VALUE (PyInt sig_figs);;
     config_setitem2 SIG_FIGS SIG_FIG_MODE (PySigFigMode VALUE))
    ValueError_or_TypeError
    (print sig_figs_value_message).

Definition set_sig_figs_for_error (new_sig_figs : pyval) : M unit :=
  try_except
    (sig_figs ← lift (py_int new_sig_figs);
     (if sig_figs <=? 0 then raise ValueError else mret tt);;
     config_setitem2 SIG_FIGS SIG_FIG_VALUE (PyInt sig_figs);;
     config_setitem2 SIG_FIGS SIG_FIG_MODE (PySigFigMode ERROR))
    ValueError_or_TypeError
    (print sig_figs_error_message).


(** ** Heap objects: attributes, allocation, [__class__] *)

(** [o.attr]: a slot declared along the MRO, else the instance
    dictionary when the class has one.  The properties of the classes are
    the functions below and never go through here. *)
Definition object_getattr (o : object) (attr : string) : result pyval :=
  if has_slot (ob_type o) attr then
    from_option Ok (Raise (AttributeError attr)) (ob_slots o !! attr)
  else if has_dict (ob_type o) then
    from_option Ok (Raise (AttributeError attr)) (ob_dict o !! attr)
  else Raise (AttributeError attr).

(** [o.attr = v] *)
Definition object_setattr (o : object) (attr : string) (v : pyval)
  : result object :=
  if has_slot (ob_type o) attr then
    Ok (mkObject (ob_type o) (<[attr := v]> (ob_slots o)) (ob_dict o))
  else if has_dict (ob_type o) then
    Ok (mkObject (ob_type o) (ob_slots o) (<[attr := v]> (ob_dict o)))
  else Raise (AttributeError attr).

(** [o.__class__ = cls] *)
Definition object_set_class (o : object) (cls : pyclass) : result object :=
  if compatible_for_assignment (ob_type o) cls
  then Ok (mkObject cls (ob_slots o) (ob_dict o))
  else Raise TypeError.

Definition update_object (self : loc) (o : object) (σ : state) : state :=
  mkState (config σ) (stdout σ) (<[self := o]> (heap σ)).

(** Reading from and writing to the instance at address [self]. *)
Definition read_object {A} (self : loc) (f : object -> result A) : M A :=
  fun σ =>
  match heap σ !! self with
  | Some o => (f o, σ)
  | None => (Raise (AttributeError "<dangling reference>"), σ)
  end.

Definition write_object (self : loc) (f : object -> result object) : M unit :=
  fun σ =>
  match heap σ !! self with
  | Some o =>
      match f o with
      | Ok o' => (Ok tt, update_object self o' σ)
      | Raise e => (Raise e, σ)
      end
  | None => (Raise (AttributeError "<dangling reference>"), σ)
  end.

Definition getattr (self : loc) (attr : string) : M pyval :=
  read_object self (fun o => object_getattr o attr).

Definition setattr (self : loc) (attr : string) (v : pyval) : M unit :=
  write_object self (fun o => object_setattr o attr v).

Definition set_class (self : loc) (cls : pyclass) : M unit :=
  write_object self (fun o => object_set_class o cls).

(** [hasattr(self, attr)]: false exactly when the access raises
    [AttributeError]. *)
Definition hasattr (self : loc) (attr : string) : M bool := fun σ =>
  match getattr self attr σ with
  | (Ok _, σ') => (Ok true, σ')
  | (Raise (AttributeError _), σ') => (Ok false, σ')
  | (Raise e, σ') => (Raise e, σ')
  end.

(** [self.attr[key] = v]: the dictionary held by the attribute is updated
    in place. *)
Definition setitem_attr (self : loc) (attr key : string) (v : pyval) : M unit :=
  target ← getattr self attr;
  match target with
  | PyDict d => setattr self attr (PyDict (<[key := v]> d))
  | _ => raise TypeError
  end.

(** A new, uninitialised instance of [cls], as made by [cls.__new__]. *)
Definition alloc (cls : pyclass) : M loc := fun σ =>
  let l := fresh (dom (heap σ)) in
  (Ok l, update_object l (mkObject cls ∅ ∅) σ).

(** ** [utils/utils.py] and the external collaborators *)

(** Modelled from the spec: the tuples [NUMBER_TYPES] and [ARRAY_TYPES] of
    [utils/utils.py], which is not among the sources.  The spec speaks of
    a "numeric argument" and of an "array-like argument": the Python
    numbers ([bool] is a subclass of [int]) and the list and array types. *)
Definition NUMBER_TYPES : list pytype := [t_int; t_float].
Definition ARRAY_TYPES : list pytype := [t_list; t_ndarray].

(** What [data.py] calls and does not define: the array constructor and
    the two statistics of numpy, and the printer chosen by
    [utils/printing.py].  [ndarray_std a ddof] is [a.std(ddof=ddof)]:
    the divisor of the variance is [N - ddof]. *)
Class Collaborators : Type := {
  np_array : pyval -> result pyval;
  ndarray_mean : pyval -> result pyval;
  ndarray_std : pyval -> Z -> result pyval;
  get_printer : M (pyval -> M string)
}.

(** ** [data/data.py] *)

Section data.
Context `{Collaborators}.

(** The texts printed by the setters and by the factory. *)
Definition value_error_message : string :=
  "Error: invalid input! You can only set the value of a measurement to a number".
Definition value_warning : string :=
  "Warning: You are trying to modify the value of a repeated measurement. Doing so has "
  ++ "caused you to lose the original list of raw measurement data".
Definition error_error_message : string :=
  "Error: invalid input! You can only set the error of a measurement to a positive number".
Definition error_warning : string :=
  "Warning: You are trying to modify the uncertainty of a repeated measurement. Doing so has "
  ++ "caused you to lose the original list of raw measurement data".
Definition relative_error_message : string :=
  "Error: invalid input! The relative uncertainty of a measurement has to be a positive number".
Definition measurement_message : string :=
  "Error: invalid input! Input must be either a single array of values, or the central value "
  ++ "and its uncertainty in one measurement".

(** [ExperimentalValue.__init__(self, unit='', name='')] *)
Definition ExperimentalValue__init__ (self : loc) (unit name : option pyval)
  : M () :=
  setattr self "_values" (PyDict ∅);;
  setattr self "_unit" (default empty_str unit);;
  setattr self "_name" (default empty_str name).

(** [MeasuredValue.__init__(self, value, error, unit='', name='')] *)
Definition MeasuredValue__init__ (self : loc) (value error : pyval)
    (unit name : option pyval) : M () :=
  ExperimentalValue__init__ self unit name;;
  setitem_attr self "_values" RECORDED (PyTuple [value; error]).

(** The getter of the property [value]. *)
Definition MeasuredValue_value (self : loc) : M pyval :=
  vals ← getattr self "_values";
  rec ← lift (py_getitem vals (PyStr RECORDED));
  lift (py_getitem rec (PyInt 0)).

(** The setter of the property [value]. *)
Definition MeasuredValue_value_setter (self : loc) (new_value : pyval)
  : M unit :=
  ok ← isinstance new_value NUMBER_TYPES;
  if (ok : bool) then
    vals ← getattr self "_values";
    rec ← lift (py_getitem vals (PyStr RECORDED));
    err ← lift (py_getitem rec (PyInt 1));
    setitem_attr self "_values" RECORDED (PyTuple [new_value; err]);;
    raw ← hasattr self "_raw_data";
    if (raw : bool) then
      print value_warning;;
      set_class self MeasuredValue
    else mret tt
  else
    print value_error_message.

(** The getter of the property [error]. *)
Definition MeasuredValue_error (self : loc) : M pyval :=
  vals ← getattr self "_values";
  rec ← lift (py_getitem vals (PyStr RECORDED));
  lift (py_getitem rec (PyInt 1)).

(** [isinstance(x, NUMBER_TYPES) and x > 0] *)
Definition positive_number (x : pyval) : M bool :=
  ok ← isinstance x NUMBER_TYPES;
  if (ok : bool) then lift (py_gt_zero x) else mret false.

(** The setter of the property [error]. *)
Definition MeasuredValue_error_setter (self : loc) (new_error : pyval)
  : M unit :=
  ok ← positive_number new_error;
  if (ok : bool) then
    vals ← getattr self "_values";
    rec ← lift (py_getitem vals (PyStr RECORDED));
    val ← lift (py_getitem rec (PyInt 0));
    setitem_attr self "_values" RECORDED (PyTuple [val; new_error]);;
    raw ← hasattr self "_raw_data";
    if (raw : bool) then
      print error_warning;;
      set_class self MeasuredValue
    else mret tt
  else
    print error_error_message.

(** [v * f] for a float [f] and a number [v] (the recorded value is a
    number: the statistics of numpy are scalars). *)
Definition py_mul_float (v : pyval) (f : spec_float) : result pyval :=
  match v with
  | PyBool _ | PyInt _ | PyFloat _ =>
      match py_float v with
      | Ok (PyFloat g) => Ok (PyFloat (SFmul prec emax g f))
      | Ok _ => Raise TypeError
      | Raise e => Raise e
      end
  | _ => Raise TypeError
  end.

(** The setter of the property [relative_error]. *)
Definition MeasuredValue_relative_error_setter (self : loc)
    (relative_error : pyval) : M unit :=
  vals ← getattr self "_values";
  value ← lift (py_getitem vals (PyStr RECORDED));
  ok ← positive_number relative_error;
  if (ok : bool) then
    v0 ← lift (py_getitem value (PyInt 0));
    r ← lift (py_float relative_error);
    new_error ← lift (match r with
                      | PyFloat f => py_mul_float v0 f
                      | _ => Raise TypeError
                      end);
    v0' ← lift (py_getitem value (PyInt 0));
    setitem_attr self "_values" RECORDED (PyTuple [v0'; new_error]);;
    raw ← hasattr self "_raw_data";
    if (raw : bool) then
      print error_warning;;
      set_class self MeasuredValue
    else mret tt
  else
    print relative_error_message.

(** The last three lines of both [_print_value] methods: the pair chosen
    is either shown as "inf" or handed to the printer. *)
Definition show_pair (value : pyval) : M string :=
  v0 ← lift (py_getitem value (PyInt 0));
  is_inf ← lift (py_eq_float v0 float_inf);
  if (is_inf : bool) then mret "inf"
  else printer ← get_printer; printer value.

(** [MeasuredValue._print_value] *)
Definition MeasuredValue_print_value (self : loc) : M string :=
  vals ← getattr self "_values";
  value ← lift (py_getitem vals (PyStr RECORDED));
  show_pair value.

(** [RepeatedlyMeasuredValue.__init__(self, measurement_array, unit, name)];
    [super().__init__(unit, name)] is [MeasuredValue.__init__], whose
    first two parameters are [value] and [error]. *)
Definition RepeatedlyMeasuredValue__init__ (self : loc)
    (measurement_array unit name : pyval) : M () :=
  MeasuredValue__init__ self unit name None None;;
  measurements ← lift (np_array measurement_array);
  mean ← lift (ndarray_mean measurements);
  std ← lift (ndarray_std measurements 0);
  setitem_attr self "_values" RECORDED (PyTuple [mean; std]);;
  setattr self "_raw_data" measurements.

(** The property [raw_data] of [RepeatedlyMeasuredValue]; a class without
    it in its MRO has no such attribute.  [deepcopy] of an immutable
    value is the value. *)
Definition raw_data (self : loc) : M pyval :=
  read_object self (fun o =>
    if issubclass (ob_type o) RepeatedlyMeasuredValue
    then object_getattr o "_raw_data"
    else Raise (AttributeError "raw_data")).

(** Calls of the classes: allocation, then [__init__]. *)
Definition new_MeasuredValue (value error unit name : pyval) : M pyval :=
  self ← alloc MeasuredValue;
  MeasuredValue__init__ self value error (Some unit) (Some name);;
  mret (PyRef self).

Definition new_RepeatedlyMeasuredValue (measurement_array unit name : pyval)
  : M pyval :=
  self ← alloc RepeatedlyMeasuredValue;
  RepeatedlyMeasuredValue__init__ self measurement_array unit name;;
  mret (PyRef self).

(** [Measurement], called with the positional arguments [args] and the
    keyword arguments [kwargs].  [arg i] is [args[i]]; every use is
    behind the test of [len(args)] that guards it in the source. *)
Definition Measurement (args : list pyval) (kwargs : gmap string pyval)
  : M pyval :=
  let arg i := nth i args PyNone in
  let kwarg k := lift (py_getitem (PyDict kwargs) (PyStr k)) in
  let len := length args in
  is_array ← isinstance (arg 0%nat) ARRAY_TYPES;
  is_number0 ← isinstance (arg 0%nat) NUMBER_TYPES;
  is_number1 ← isinstance (arg 1%nat) NUMBER_TYPES;
  if (len =? 1)%nat && is_array then
    unit ← kwarg "unit";
    name ← kwarg "name";
    new_RepeatedlyMeasuredValue (arg 0%nat) unit name
  else if (len =? 1)%nat && is_number0 then
    value ← lift (py_float (arg 0%nat));
    unit ← kwarg "unit";
    name ← kwarg "name";
    new_MeasuredValue value (PyInt 0) unit name
  else if (len =? 2)%nat && is_number0 && is_number1 then
    value ← lift (py_float (arg 0%nat));
    error ← lift (py_float (arg 1%nat));
    unit ← kwarg "unit";
    name ← kwarg "name";
    new_MeasuredValue value error unit name
  else
    print measurement_message;;
    mret PyNone.

(** [v.value] for the values the code reads it from: an enumeration
    member, or an instance with the property [value]. *)
Definition dot_value (v : pyval) : M pyval :=
  match v with
  | PyErrorMethod m => mret (PyStr (ErrorMethod_value m))
  | PyPrintStyle s => mret (PyStr (PrintStyle_value s))
  | PySigFigMode m => mret (PyStr (SigFigMode_value m))
  | PyRef l =>
      measured ← isinstance v [t_class MeasuredValue];
      if (measured : bool) then MeasuredValue_value l
      else raise (AttributeError "value")
  | _ => raise (AttributeError "value")
  end.

(** [Function.__init__(self, propagated_results, unit='', name='',
    error_method=None)] *)
Definition Function__init__ (self : loc) (propagated_results : pyval)
    (unit name error_method : option pyval) : M () :=
  ExperimentalValue__init__ self unit name;;
  setattr self "_values" propagated_results;;
  chosen ← lift (py_bool (default PyNone error_method));
  if (chosen : bool) then
    setattr self "_is_error_method_specified" (PyBool true);;
    setattr self "_error_method" (default PyNone error_method)
  else
    setattr self "_is_error_method_specified" (PyBool false);;
    global ← get_error_method;
    setattr self "_error_method" global.

Definition new_Function (propagated_results : pyval)
    (unit name error_method : option pyval) : M pyval :=
  self ← alloc Function;
  Function__init__ self propagated_results unit name error_method;;
  mret (PyRef self).

(** [Function._print_value] *)
Definition Function_print_value (self : loc) : M string :=
  specified ← getattr self "_is_error_method_specified";
  pinned ← lift (py_bool specified);
  value ← (if (pinned : bool) then
             vals ← getattr self "_values";
             method ← getattr self "_error_method";
             key ← dot_value method;
             lift (py_getitem vals key)
           else
             vals ← getattr self "_values";
             method ← get_error_method;
             key ← dot_value method;
             lift (py_getitem vals key));
  show_pair value.

(** *** The rest of [ExperimentalValue] *)

(** The getter and the setter of the property [name]. *)
Definition ExperimentalValue_name (self : loc) : M pyval :=
  getattr self "_name".

Definition ExperimentalValue_name_setter (self : loc) (new_name : pyval)
  : M () :=
  ok ← isinstance new_name [t_str];
  if (ok : bool) then setattr self "_name" new_name else mret tt.

(** The getter and the setter of the property [unit]; the body of the
    setter is [pass] under the test. *)
Definition ExperimentalValue_unit (self : loc) : M pyval :=
  getattr self "_unit".

Definition ExperimentalValue_unit_setter (self : loc) (new_unit : pyval)
  : M () :=
  ok ← isinstance new_unit [t_str];
  if (ok : bool) then mret tt else mret tt.

(** [ExperimentalValue._print_value]: the body is a docstring, the call
    returns [None]. *)
Definition ExperimentalValue_print_value (self : loc) : M pyval :=
  mret PyNone.

(** [self._print_value()]: the method of the first class of the MRO that
    defines one. *)
Definition call_print_value (self : loc) : M pyval :=
  cls ← read_object self (fun o => Ok (ob_type o));
  match cls with
  | MeasuredValue | RepeatedlyMeasuredValue =>
      s ← MeasuredValue_print_value self; mret (PyStr s)
  | Function => s ← Function_print_value self; mret (PyStr s)
  | ExperimentalValue | Constant => ExperimentalValue_print_value self
  end.

(** [v + s] for a string [s]: concatenation when [v] is a string; no
    other value of the model adds to a string. *)
Definition py_add_str (v : pyval) (s : string) : result string :=
  match v with
  | PyStr x => Ok (x ++ s)
  | _ => Raise TypeError
  end.

(** [string += v] for a string [string]. *)
Definition str_iadd (string : String.string) (v : pyval)
  : result String.string :=
  match v with
  | PyStr x => Ok (string ++ x)
  | _ => Raise TypeError
  end.

(** [ExperimentalValue.__str__] *)
Definition ExperimentalValue__str__ (self : loc) : M string :=
  constant ← isinstance (PyRef self) [t_class Constant];
  if (constant : bool) then mret EmptyString
  else
    let string := EmptyString in
    name ← ExperimentalValue_name self;
    named ← lift (py_bool name);
    string ← (if (named : bool) then
                name ← ExperimentalValue_name self;
                label ← lift (py_add_str name " = ");
                lift (str_iadd string (PyStr label))
              else mret string);
    shown ← call_print_value self;
    lift (str_iadd string shown).

End data.

(** ** A reference instance of the collaborators

    Used to run the code on examples: arrays of binary64 numbers with the
    textbook mean and standard deviation, summed from left to right, and
    a printer that writes a fixed text. *)

Definition float_of_number (v : pyval) : result spec_float :=
  match v with
  | PyBool _ | PyInt _ | PyFloat _ =>
      match py_float v with
      | Ok (PyFloat f) => Ok f
      | Ok _ => Raise TypeError
      | Raise e => Raise e
      end
  | _ => Raise TypeError
  end.

Fixpoint floats_of (l : list pyval) : result (list spec_float) :=
  match l with
  | [] => Ok []
  | v :: rest =>
      match float_of_number v, floats_of rest with
      | Ok f, Ok fs => Ok (f :: fs)
      | Raise e, _ => Raise e
      | _, Raise e => Raise e
      end
  end.

Definition sum64 (l : list spec_float) : spec_float :=
  fold_left (SFadd prec emax) l float_zero.

Definition mean64 (l : list spec_float) : spec_float :=
  SFdiv prec emax (sum64 l) (float_of_Z (Z.of_nat (length l))).

Definition std64 (l : list spec_float) (ddof : Z) : spec_float :=
  let m := mean64 l in
  let sq x := let d := SFsub prec emax x m in SFmul prec emax d d in
  SFsqrt prec emax
    (SFdiv prec emax (sum64 (map sq l))
       (float_of_Z (Z.of_nat (length l) - ddof))).

Definition reference_array (v : pyval) : result pyval :=
  match v with
  | PyList l | PyTuple l | PyNdarray l =>
      match floats_of l with
      | Ok fs => Ok (PyNdarray (map PyFloat fs))
      | Raise e => Raise e
      end
  | _ => Raise TypeError
  end.

Definition with_floats (v : pyval) (f : list spec_float -> spec_float)
  : result pyval :=
  match v with
  | PyNdarray l =>
      match floats_of l with
      | Ok fs => Ok (PyFloat (f fs))
      | Raise e => Raise e
      end
  | _ => Raise TypeError
  end.

Definition fixed_printer : M (pyval -> M string) :=
  mret (fun _ => mret "<value> +/- <error>").

Definition reference : Collaborators := {|
  np_array := reference_array;
  ndarray_mean v := with_floats v mean64;
  ndarray_std v ddof := with_floats v (fun fs => std64 fs ddof);
  get_printer := fixed_printer
|}.


(** ** Vocabulary of the statements *)

(** A call of one of the functions of [settings.py] that write [config]. *)
Inductive setter_call : Type :=
| call_set_error_method (new_method : pyval)
| call_set_print_style (new_style : pyval)
| call_set_sig_figs_for_value (new_sig_figs : pyval)
| call_set_sig_figs_for_error (new_sig_figs : pyval)
| call_reset_default_configuration.

Definition run_call (c : setter_call) : M unit :=
  match c with
  | call_set_error_method v => set_error_method v
  | call_set_print_style v => set_print_style v
  | call_set_sig_figs_for_value v => set_sig_figs_for_value v
  | call_set_sig_figs_for_error v => set_sig_figs_for_error v
  | call_reset_default_configuration => reset_default_configuration
  end.

(** The calls are made one after the other at top level; a call that
    raises leaves the state it reached, and the next call starts there. *)
Fixpoint run_calls (cs : list setter_call) (σ : state) : state :=
  match cs with
  | [] => σ
  | c :: rest => run_calls rest (snd (run_call c σ))
  end.

(** The state after [config[SIG_FIGS]] got value [n] and mode [mode]. *)
Definition with_sig_figs (n : Z) (mode : SigFigMode) (d : gmap string pyval)
    (σ : state) : state :=
  mkState
    (<[SIG_FIGS := PyDict (<[SIG_FIG_MODE := PySigFigMode mode]>
                             (<[SIG_FIG_VALUE := PyInt n]> d))]> (config σ))
    (stdout σ) (heap σ).

(** "A positive integer (or a numeric string coercible to one)": the
    integer an [int] or a [str] argument stands for. *)
Definition as_integer (v : pyval) : option Z :=
  match v with
  | PyInt n => Some n
  | PyStr s => int_of_str s
  | _ => None
  end.

(** "Zero, negative, or non-numeric input": an integer or a finite float
    that is not positive, a string that holds no positive integer, and
    every value that is neither a number nor a string.  The infinite
    floats are left out. *)
Definition zero_negative_or_non_numeric (v : pyval) : bool :=
  match v with
  | PyInt n => n <=? 0
  | PyBool b => negb b
  | PyFloat f =>
      match f with
      | S754_zero _ | S754_nan | S754_finite true _ _ => true
      | _ => false
      end
  | PyStr s => from_option (fun n => n <=? 0) true (int_of_str s)
  | PyNdarray _ => false
  | _ => true
  end.

(** What the two getters of the significant figures answer. *)
Definition sig_figs_are (n : Z) (mode : SigFigMode) (σ : state) : Prop :=
  get_sig_fig_value σ = (Ok (PyInt n), σ)
  /\ get_sig_fig_mode σ = (Ok (PySigFigMode mode), σ).

(** [config[SIG_FIGS]] is a dictionary. *)
Definition has_sig_figs (σ : state) : Prop :=
  exists d, config σ !! SIG_FIGS = Some (PyDict d).

(** The instances of [NUMBER_TYPES] and of [ARRAY_TYPES]. *)
Definition is_number (v : pyval) : bool :=
  match v with
  | PyBool _ | PyInt _ | PyFloat _ => true
  | _ => false
  end.

Definition is_array (v : pyval) : bool :=
  match v with
  | PyList _ | PyNdarray _ => true
  | _ => false
  end.

(** The slots of an instance after the constructor of [MeasuredValue]. *)
Definition measured_slots (value error unit name : pyval)
  : gmap string pyval :=
  {[ "_values" := PyDict {[ RECORDED := PyTuple [value; error] ]};
     "_unit" := unit; "_name" := name ]}.

(** The instance with the pair under [RECORDED] replaced, the dictionary
    of pairs being [vals]. *)
Definition set_pair (o : object) (vals : gmap string pyval) (pair : pyval)
  : object :=
  mkObject (ob_type o)
    (<["_values" := PyDict (<[RECORDED := pair]> vals)]> (ob_slots o))
    (ob_dict o).

(** "A strictly positive number": an [int], [bool] or [float] above zero. *)
Definition strictly_positive (v : pyval) : bool :=
  match v with
  | PyInt n => 0 <? n
  | PyBool b => b
  | PyFloat f => SFltb float_zero f
  | _ => false
  end.

(** The shapes of positional arguments on which [Measurement] builds an
    instance. *)
Definition dispatchable (args : list pyval) : bool :=
  match args with
  | [a] => is_array a || is_number a
  | [x; y] => is_number x && is_number y
  | _ => false
  end.

Definition keywords (unit name : string) : gmap string pyval :=
  {[ "unit" := PyStr unit; "name" := PyStr name ]}.

(** What both setters do once the new pair is stored: the test for raw
    data, the warning and the change of class. *)
Definition demote (warning : string) (l : loc) : M unit :=
  raw ← hasattr l "_raw_data";
  if (raw : bool) then print warning;; set_class l MeasuredValue else mret tt.

(** The slots of an instance after the constructor of [Function]. *)
Definition function_slots (results unit name : pyval) (specified : bool)
    (method : pyval) : gmap string pyval :=
  {[ "_values" := results; "_unit" := unit; "_name" := name;
     "_is_error_method_specified" := PyBool specified;
     "_error_method" := method ]}.

(** The [.value] of a member of one of the three enumerations. *)
Definition enum_value (v : pyval) : option string :=
  match v with
  | PyErrorMethod m => Some (ErrorMethod_value m)
  | PyPrintStyle s => Some (PrintStyle_value s)
  | PySigFigMode m => Some (SigFigMode_value m)
  | _ => None
  end.

(** Sample data for the examples: the instance that
    [Measurement([1, 3], unit="m", name="length")] builds with the
    reference collaborators (mean 2.0, standard deviation 1.0), an
    instance recording an infinite value, and the three pairs of a
    [Function]. *)
Definition sample_repeated : object :=
  mkObject RepeatedlyMeasuredValue
    (<["_raw_data" := PyNdarray [PyFloat (float_of_Z 1); PyFloat (float_of_Z 3)]]>
       (measured_slots (PyFloat (float_of_Z 2)) (PyFloat (float_of_Z 1))
          empty_str empty_str))
    ∅.

Definition sample_infinite : object :=
  mkObject MeasuredValue
    (measured_slots (PyFloat float_inf) (PyInt 0) (PyStr "m") (PyStr "length"))
    ∅.

Definition sample_results : gmap string pyval :=
  {[ "derivative" := PyTuple [PyFloat (float_of_Z 5); PyFloat (float_of_Z 1)];
     "min_max" := PyTuple [PyFloat (float_of_Z 5); PyFloat (float_of_Z 2)];
     "monte_carlo" := PyTuple [PyFloat (float_of_Z 5); PyFloat (float_of_Z 3)] ]}.

(** *** Invariants of a computation *)

(** [m] keeps [I]: from a state in [I] it ends, normally or raising, in a
    state in [I]. *)
Definition keeps {A} (I : state -> Prop) (m : M A) : Prop :=
  forall σ, I σ -> I (snd (m σ)).

(** The instance at [l] is a [RepeatedlyMeasuredValue] whose slot
    [_raw_data] holds [arr]. *)
Definition holds_raw_data (l : loc) (arr : pyval) (σ : state) : Prop :=
  exists o, heap σ !! l = Some o
            /\ ob_type o = RepeatedlyMeasuredValue
            /\ ob_slots o !! "_raw_data" = Some arr.

(** [σ'] has the configuration of [σ] and every instance of [σ] as it
    was. *)
Definition extends (σ σ' : state) : Prop :=
  config σ' = config σ
  /\ forall l o, heap σ !! l = Some o -> heap σ' !! l = Some o.

(** The error method and the print style that [config] holds. *)
Definition method_and_style (σ : state) : option pyval * option pyval :=
  (config σ !! ERROR_METHOD, config σ !! PRINT_STYLE).

(** The instance of [Measurement(-2, 1, unit="m", name="length")]. *)
Definition sample_negative : object :=
  mkObject MeasuredValue
    (measured_slots (PyFloat (float_of_Z (-2))) (PyFloat (float_of_Z 1))
       (PyStr "m") (PyStr "length"))
    ∅.

(** *** Arrays of numbers and their statistics *)

(** An element that numpy stores as a [float64], an [int64] or a [bool]:
    each stands for the float that [float()] makes of it. *)
Definition int64 (n : Z) : bool := (- 2 ^ 63 <=? n) && (n <? 2 ^ 63).

Definition sample (v : pyval) : bool :=
  match v with
  | PyFloat _ | PyBool _ => true
  | PyInt n => int64 n
  | _ => false
  end.

(** "An array of numbers": a list or an array of such elements, read as
    the floats they stand for. *)
Definition samples_of (a : pyval) : option (list spec_float) :=
  match a with
  | PyList l | PyNdarray l =>
      if forallb sample l
      then match floats_of l with Ok fs => Some fs | Raise _ => None end
      else None
  | _ => None
  end.

(** [s] is a sum of the numbers of [l] in binary64: they are added up
    from a zero, in some order and some grouping. *)
Inductive is_sum_of : list spec_float -> spec_float -> Prop :=
| sum_zero (sign : bool) : is_sum_of [] (S754_zero sign)
| sum_one (x : spec_float) : is_sum_of [x] x
| sum_add (l1 l2 : list spec_float) (s1 s2 : spec_float) :
    is_sum_of l1 s1 -> is_sum_of l2 s2 ->
    is_sum_of (l1 ++ l2)%list (SFadd prec emax s1 s2)
| sum_perm (l l' : list spec_float) (s : spec_float) :
    l ≡ₚ l' -> is_sum_of l s -> is_sum_of l' s.

(** The arithmetic mean: the sum divided by the number of samples. *)
Definition arithmetic_mean (sum : list spec_float -> spec_float)
    (fs : list spec_float) : spec_float :=
  SFdiv prec emax (sum fs) (float_of_Z (Z.of_nat (length fs))).

(** The standard deviation: the square root of the sum of the squared
    deviations from the mean, divided by [divisor]. *)
Definition standard_deviation (sum : list spec_float -> spec_float)
    (fs : list spec_float) (divisor : Z) : spec_float :=
  let m := arithmetic_mean sum fs in
  let sq x := let d := SFsub prec emax x m in SFmul prec emax d d in
  SFsqrt prec emax (SFdiv prec emax (sum (map sq fs)) (float_of_Z divisor)).

(** What the documentation of numpy says of [np.array], [mean] and [std]
    on a non-empty array of N numbers, [sum] being the summation of numpy:
    the array is made, [mean()] is the sum divided by N, and [std(ddof)]
    is the square root of the sum of the squared deviations divided by
    [N - ddof]. *)
Definition computes_statistics `{Collaborators}
    (sum : list spec_float -> spec_float) : Prop :=
  (forall l, is_sum_of l (sum l))
  /\ forall a fs,
       samples_of a = Some fs -> fs <> [] ->
       exists arr,
         np_array a = Ok arr
         /\ ndarray_mean arr = Ok (PyFloat (arithmetic_mean sum fs))
         /\ forall ddof,
              ddof <= Z.of_nat (length fs) ->
              ndarray_std arr ddof
              = Ok (PyFloat (standard_deviation sum fs
                               (Z.of_nat (length fs) - ddof))).

(** [value * float(r)], the new uncertainty of the setter of
    [relative_error]: [float(r)] is taken first, then the product. *)
Definition scaled (value r : pyval) : result pyval :=
  match py_float r with
  | Ok (PyFloat f) => py_mul_float value f
  | Ok _ => Raise TypeError
  | Raise e => Raise e
  end.

(** * Proofs *)

(** ** Facts about the configuration store *)

Section settings_facts.

Lemma config_setitem2_run key sub v d σ :
  config σ !! key = Some (PyDict d) ->
  config_setitem2 key sub v σ =
    (Ok tt, mkState (<[key := PyDict (<[sub := v]> d)]> (config σ))
                    (stdout σ) (heap σ)).
Proof.
  intros Hd. unfold config_setitem2, mbind, M_bind, config_getitem.
  rewrite Hd. reflexivity.
Qed.

(** Both writes of a significant-figure setter, one after the other. *)
Lemma sig_figs_writes n mode d σ :
  config σ !! SIG_FIGS = Some (PyDict d) ->
  (config_setitem2 SIG_FIGS SIG_FIG_VALUE (PyInt n);;
   config_setitem2 SIG_FIGS SIG_FIG_MODE (PySigFigMode mode)) σ
  = (Ok tt, with_sig_figs n mode d σ).
Proof.
  intros Hd. unfold mbind, M_bind at 1.
  rewrite (config_setitem2_run _ _ _ d) by exact Hd.
  erewrite config_setitem2_run by (simpl; apply lookup_insert_eq).
  unfold with_sig_figs. simpl. rewrite insert_insert_eq. reflexivity.
Qed.

Lemma set_sig_figs_for_value_run v d σ :
  config σ !! SIG_FIGS = Some (PyDict d) ->
  set_sig_figs_for_value v σ =
    match py_int v with
    | Ok n =>
        if n <=? 0 then (Ok tt, printed sig_figs_value_message σ)
        else (Ok tt, with_sig_figs n VALUE d σ)
    | Raise e =>
        if ValueError_or_TypeError e
        then (Ok tt, printed sig_figs_value_message σ)
        else (Raise e, σ)
    end.
Proof.
  intros Hd. unfold set_sig_figs_for_value, try_except.
  unfold mbind at 1, M_bind at 1, lift.
  destruct (py_int v) as [n|e]; [|reflexivity].
  unfold mbind at 1, M_bind at 1.
  destruct (n <=? 0); [reflexivity|].
  unfold mret, M_ret. rewrite (sig_figs_writes n VALUE d σ Hd). reflexivity.
Qed.

Lemma set_sig_figs_for_error_run v d σ :
  config σ !! SIG_FIGS = Some (PyDict d) ->
  set_sig_figs_for_error v σ =
    match py_int v with
    | Ok n =>
        if n <=? 0 then (Ok tt, printed sig_figs_error_message σ)
        else (Ok tt, with_sig_figs n ERROR d σ)
    | Raise e =>
        if ValueError_or_TypeError e
        then (Ok tt, printed sig_figs_error_message σ)
        else (Raise e, σ)
    end.
Proof.
  intros Hd. unfold set_sig_figs_for_error, try_except.
  unfold mbind at 1, M_bind at 1, lift.
  destruct (py_int v) as [n|e]; [|reflexivity].
  unfold mbind at 1, M_bind at 1.
  destruct (n <=? 0); [reflexivity|].
  unfold mret, M_ret. rewrite (sig_figs_writes n ERROR d σ Hd). reflexivity.
Qed.

Lemma key_ne_1 : ERROR_METHOD ≠ SIG_FIGS. Proof. discriminate. Qed.
Lemma key_ne_2 : PRINT_STYLE ≠ SIG_FIGS. Proof. discriminate. Qed.
Lemma key_ne_4 : SIG_FIG_MODE ≠ SIG_FIG_VALUE. Proof. discriminate. Qed.

Lemma sig_figs_are_with_sig_figs n mode d σ :
  sig_figs_are n mode (with_sig_figs n mode d σ).
Proof.
  unfold sig_figs_are, get_sig_fig_value, get_sig_fig_mode, mbind, M_bind,
    config_getitem, with_sig_figs, lift; simpl.
  rewrite lookup_insert_eq; simpl.
  rewrite lookup_insert_eq.
  rewrite lookup_insert_ne by exact key_ne_4.
  rewrite lookup_insert_eq. split; reflexivity.
Qed.

Lemma has_sig_figs_initial : has_sig_figs initial_state.
Proof. eexists. vm_compute. reflexivity. Qed.

Lemma reset_default_configuration_run d σ :
  config σ !! SIG_FIGS = Some (PyDict d) ->
  reset_default_configuration σ =
    (Ok tt,
     mkState
       (<[SIG_FIGS := PyDict (<[SIG_FIG_VALUE := PyInt 1]>
                                (<[SIG_FIG_MODE := PySigFigMode AUTOMATIC]> d))]>
          (<[PRINT_STYLE := PyPrintStyle DEFAULT]>
             (<[ERROR_METHOD := PyErrorMethod DERIVATIVE]> (config σ))))
       (stdout σ) (heap σ)).
Proof.
  intros Hd. unfold reset_default_configuration.
  unfold mbind at 1, M_bind at 1, config_setitem at 1.
  unfold mbind at 1, M_bind at 1, config_setitem at 1.
  unfold mbind at 1, M_bind at 1.
  erewrite config_setitem2_run; cycle 1.
  { simpl. rewrite lookup_insert_ne by exact key_ne_2.
    rewrite lookup_insert_ne by exact key_ne_1. exact Hd. }
  erewrite config_setitem2_run by (simpl; apply lookup_insert_eq).
  simpl. rewrite insert_insert_eq. reflexivity.
Qed.

Lemma run_call_has_sig_figs c σ :
  has_sig_figs σ -> has_sig_figs (snd (run_call c σ)).
Proof.
  intros [d Hd]. unfold has_sig_figs. destruct c as [v|v|v|v|]; simpl.
  - unfold set_error_method, mbind, M_bind, isinstance.
    destruct (has_type (heap σ) v [t_ErrorMethod]); simpl.
    + exists d. rewrite lookup_insert_ne by exact key_ne_1. exact Hd.
    + exists d. exact Hd.
  - unfold set_print_style, mbind, M_bind, isinstance.
    destruct (has_type (heap σ) v [t_PrintStyle]); simpl.
    + exists d. rewrite lookup_insert_ne by exact key_ne_1. exact Hd.
    + exists d. exact Hd.
  - rewrite (set_sig_figs_for_value_run v d σ Hd).
    destruct (py_int v) as [n|e];
      [destruct (n <=? 0)|destruct (ValueError_or_TypeError e)]; simpl;
      try (exists d; exact Hd).
    eexists. apply lookup_insert_eq.
  - rewrite (set_sig_figs_for_error_run v d σ Hd).
    destruct (py_int v) as [n|e];
      [destruct (n <=? 0)|destruct (ValueError_or_TypeError e)]; simpl;
      try (exists d; exact Hd).
    eexists. apply lookup_insert_eq.
  - rewrite (reset_default_configuration_run d σ Hd). simpl.
    eexists. apply lookup_insert_eq.
Qed.

Lemma run_calls_has_sig_figs cs : forall σ,
  has_sig_figs σ -> has_sig_figs (run_calls cs σ).
Proof.
  induction cs as [|c rest IH]; intros σ Hσ; simpl.
  - exact Hσ.
  - apply IH, run_call_has_sig_figs, Hσ.
Qed.

(** C7. After any sequence of calls of the setters of the configuration
    store, made from the initial configuration, a call of
    [reset_default_configuration] returns normally, and then
    [get_error_method()] is [DERIVATIVE], [get_print_style()] is [DEFAULT],
    [get_sig_fig_mode()] is [AUTOMATIC] and [get_sig_fig_value()] is 1. *)
Theorem reset_restores_defaults (cs : list setter_call) :
  exists σ',
    reset_default_configuration (run_calls cs initial_state) = (Ok tt, σ')
    /\ get_error_method σ' = (Ok (PyErrorMethod DERIVATIVE), σ')
    /\ get_print_style σ' = (Ok (PyPrintStyle DEFAULT), σ')
    /\ get_sig_fig_mode σ' = (Ok (PySigFigMode AUTOMATIC), σ')
    /\ get_sig_fig_value σ' = (Ok (PyInt 1), σ').
Proof.
  destruct (run_calls_has_sig_figs cs initial_state has_sig_figs_initial)
    as [d Hd].
  eexists. split; [apply (reset_default_configuration_run d), Hd|].
  unfold get_error_method, get_print_style, get_sig_fig_mode,
    get_sig_fig_value, mbind, M_bind, config_getitem, lift; simpl.
  rewrite lookup_insert_eq.
  rewrite (lookup_insert_ne _ SIG_FIGS ERROR_METHOD) by discriminate.
  rewrite (lookup_insert_ne _ PRINT_STYLE ERROR_METHOD) by discriminate.
  rewrite (lookup_insert_ne _ SIG_FIGS PRINT_STYLE) by discriminate.
  rewrite !lookup_insert_eq. simpl.
  rewrite lookup_insert_eq.
  rewrite (lookup_insert_ne _ SIG_FIG_VALUE SIG_FIG_MODE) by discriminate.
  rewrite lookup_insert_eq.
  repeat split; reflexivity.
Qed.


Lemma py_int_as_integer v n : as_integer v = Some n -> py_int v = Ok n.
Proof.
  destruct v; simpl; try discriminate.
  - intros [= ->]. reflexivity.
  - intros ->. reflexivity.
Qed.

Lemma py_int_rejected v :
  zero_negative_or_non_numeric v = true ->
  match py_int v with
  | Ok n => n <= 0
  | Raise e => ValueError_or_TypeError e = true
  end.
Proof.
  destruct v as [|b|n|f|s|l|l|d|l|m|m|m|l]; simpl; try discriminate;
    try reflexivity.
  - destruct b; simpl; [discriminate|lia].
  - intros Hn. apply Z.leb_le, Hn.
  - destruct f as [s|s| |[] m e]; simpl; try discriminate; try reflexivity;
      try lia.
    intros _. pose proof (Z.shiftl_nonneg (Z.pos m) e). lia.
  - destruct (int_of_str s) as [n|]; simpl; [|reflexivity].
    intros Hn. apply Z.leb_le, Hn.
Qed.

(** The inputs that the setters handle.  With [n] a positive integer,
    given as an [int] or as a string that [int()] reads as [n],
    [set_sig_figs_for_value] stores [n] as the number of significant
    figures and switches the mode to [VALUE], and [set_sig_figs_for_error]
    stores [n] and switches the mode to [ERROR].  For an input of
    [zero_negative_or_non_numeric] each setter prints its error message
    and returns with [config] as it was: value and mode are unchanged. *)
Lemma sig_figs_setters_accept_positive_integers σ d v :
  config σ !! SIG_FIGS = Some (PyDict d) ->
  (forall n, as_integer v = Some n -> 0 < n ->
     set_sig_figs_for_value v σ = (Ok tt, with_sig_figs n VALUE d σ)
     /\ sig_figs_are n VALUE (with_sig_figs n VALUE d σ)
     /\ set_sig_figs_for_error v σ = (Ok tt, with_sig_figs n ERROR d σ)
     /\ sig_figs_are n ERROR (with_sig_figs n ERROR d σ))
  /\ (zero_negative_or_non_numeric v = true ->
      set_sig_figs_for_value v σ = (Ok tt, printed sig_figs_value_message σ)
      /\ set_sig_figs_for_error v σ = (Ok tt, printed sig_figs_error_message σ)
      /\ config (printed sig_figs_value_message σ) = config σ
      /\ config (printed sig_figs_error_message σ) = config σ).
Proof.
  intros Hd. split.
  - intros n Hv Hn.
    rewrite (set_sig_figs_for_value_run v d σ Hd),
      (set_sig_figs_for_error_run v d σ Hd), (py_int_as_integer v n Hv).
    destruct (Z.leb_spec n 0) as [Hle|_]; [lia|].
    repeat split; apply sig_figs_are_with_sig_figs.
  - intros Hv. apply py_int_rejected in Hv.
    rewrite (set_sig_figs_for_value_run v d σ Hd),
      (set_sig_figs_for_error_run v d σ Hd).
    destruct (py_int v) as [n|e].
    + destruct (Z.leb_spec n 0) as [_|Hlt]; [|lia]. repeat split.
    + rewrite Hv. repeat split.
Qed.

(** C8, at the negative input [float('-inf')].  [int()] raises
    [OverflowError] there, which [except (ValueError, TypeError)] does not
    list: neither setter prints its error message, the exception leaves
    the setter and the state is as it was.  The neighbouring inputs are
    answered as intended: [float('nan')], where [int()] raises
    [ValueError], and [-1] get the printed message. *)
Theorem sig_figs_setters_miss_OverflowError σ :
  set_sig_figs_for_value (PyFloat (S754_infinity true)) σ
  = (Raise OverflowError, σ)
  /\ set_sig_figs_for_error (PyFloat (S754_infinity true)) σ
     = (Raise OverflowError, σ)
  /\ set_sig_figs_for_value (PyFloat S754_nan) σ
     = (Ok tt, printed sig_figs_value_message σ)
  /\ set_sig_figs_for_error (PyFloat S754_nan) σ
     = (Ok tt, printed sig_figs_error_message σ)
  /\ set_sig_figs_for_value (PyInt (-1)) σ
     = (Ok tt, printed sig_figs_value_message σ)
  /\ set_sig_figs_for_error (PyInt (-1)) σ
     = (Ok tt, printed sig_figs_error_message σ).
Proof. repeat split. Qed.

(** An infinite float is not caught by the [except] clause: the
    [OverflowError] of [int()] leaves the setter, and nothing changed. *)
Lemma set_sig_figs_infinite σ d s :
  config σ !! SIG_FIGS = Some (PyDict d) ->
  set_sig_figs_for_value (PyFloat (S754_infinity s)) σ = (Raise OverflowError, σ)
  /\ set_sig_figs_for_error (PyFloat (S754_infinity s)) σ
     = (Raise OverflowError, σ).
Proof.
  intros Hd.
  rewrite (set_sig_figs_for_value_run _ d σ Hd),
    (set_sig_figs_for_error_run _ d σ Hd). split; reflexivity.
Qed.

(** A member of [PrintStyle] is stored under the key [ERROR_METHOD]. *)
Lemma set_print_style_run (s : PrintStyle) σ :
  set_print_style (PyPrintStyle s) σ =
    (Ok tt, mkState (<[ERROR_METHOD := PyPrintStyle s]> (config σ))
                    (stdout σ) (heap σ)).
Proof. reflexivity. Qed.

(** Any other argument is refused with the message. *)
Lemma set_print_style_rejects v σ :
  (forall s, v <> PyPrintStyle s) ->
  set_print_style v σ = (Ok tt, printed print_style_message σ).
Proof.
  intros Hv. unfold set_print_style, mbind, M_bind, isinstance, has_type.
  destruct v; try reflexivity.
  - exfalso. eapply Hv. reflexivity.
  - simpl. destruct (heap σ !! l); reflexivity.
Qed.

(** C1, at [set_print_style(PrintStyle.LATEX)] in the initial
    configuration: the call returns normally, after it [get_print_style()]
    is still [DEFAULT], and [get_error_method()] is [PrintStyle.LATEX]:
    the style went into the slot of the error method. *)
Theorem set_print_style_writes_error_method :
  let σ := snd (set_print_style (PyPrintStyle LATEX) initial_state) in
  fst (set_print_style (PyPrintStyle LATEX) initial_state) = Ok tt
  /\ fst (get_print_style σ) = Ok (PyPrintStyle DEFAULT)
  /\ fst (get_error_method σ) = Ok (PyPrintStyle LATEX)
  /\ fst (get_error_method initial_state) = Ok (PyErrorMethod DERIVATIVE).
Proof. vm_compute. repeat split. Qed.

(** In the initial configuration: [int("3")] is 3 and 0 is refused. *)
Lemma sig_figs_setters_witness :
  (set_sig_figs_for_value (PyStr "3") initial_state
   = (Ok tt, with_sig_figs 3 VALUE
               {[ "mode" := PySigFigMode AUTOMATIC; "value" := PyInt 1 ]}
               initial_state))
  /\ set_sig_figs_for_value (PyInt 0) initial_state
     = (Ok tt, printed sig_figs_value_message initial_state).
Proof.
  pose proof (sig_figs_setters_accept_positive_integers initial_state
                {[ "mode" := PySigFigMode AUTOMATIC; "value" := PyInt 1 ]})
    as T.
  split.
  - destruct (T (PyStr "3") ltac:(vm_compute; reflexivity)) as [Hacc _].
    destruct (Hacc 3 ltac:(vm_compute; reflexivity) ltac:(lia)) as [Hv _].
    exact Hv.
  - destruct (T (PyInt 0) ltac:(vm_compute; reflexivity)) as [_ Hrej].
    destruct (Hrej ltac:(reflexivity)) as [Hv _]. exact Hv.
Defined.

End settings_facts.

(** ** Facts about the monad and the heap *)

Section monad_facts.

Lemma bind_run {A B} (m : M A) (f : A -> M B) σ a σ' :
  m σ = (Ok a, σ') -> (m ≫= f) σ = f a σ'.
Proof. intros Hm. unfold mbind, M_bind. rewrite Hm. reflexivity. Qed.

Lemma bind_raise {A B} (m : M A) (f : A -> M B) σ e σ' :
  m σ = (Raise e, σ') -> (m ≫= f) σ = (Raise e, σ').
Proof. intros Hm. unfold mbind, M_bind. rewrite Hm. reflexivity. Qed.

Lemma heap_update_object l o σ : heap (update_object l o σ) !! l = Some o.
Proof. apply lookup_insert_eq. Qed.

Lemma update_object_twice l o1 o2 σ :
  update_object l o2 (update_object l o1 σ) = update_object l o2 σ.
Proof. unfold update_object; simpl. rewrite insert_insert_eq. reflexivity. Qed.

Lemma read_object_run {A} l (f : object -> result A) o σ :
  heap σ !! l = Some o -> read_object l f σ = (f o, σ).
Proof. intros Ho. unfold read_object. rewrite Ho. reflexivity. Qed.

Lemma write_object_run l (f : object -> result object) o o' σ :
  heap σ !! l = Some o -> f o = Ok o' ->
  write_object l f σ = (Ok tt, update_object l o' σ).
Proof. intros Ho Hf. unfold write_object. rewrite Ho, Hf. reflexivity. Qed.

Lemma write_object_raise l (f : object -> result object) o e σ :
  heap σ !! l = Some o -> f o = Raise e ->
  write_object l f σ = (Raise e, σ).
Proof. intros Ho Hf. unfold write_object. rewrite Ho, Hf. reflexivity. Qed.

Lemma getattr_run l attr o v σ :
  heap σ !! l = Some o -> object_getattr o attr = Ok v ->
  getattr l attr σ = (Ok v, σ).
Proof.
  intros Ho Hv. unfold getattr. rewrite (read_object_run l _ o σ Ho), Hv.
  reflexivity.
Qed.

Lemma setattr_run l attr v o o' σ :
  heap σ !! l = Some o -> object_setattr o attr v = Ok o' ->
  setattr l attr v σ = (Ok tt, update_object l o' σ).
Proof. intros Ho Hv. apply (write_object_run l _ o o' σ Ho Hv). Qed.

Lemma hasattr_run l attr o σ :
  heap σ !! l = Some o ->
  hasattr l attr σ =
    (Ok (match object_getattr o attr with Ok _ => true | Raise _ => false end),
     σ).
Proof.
  intros Ho. unfold hasattr, getattr.
  rewrite (read_object_run l _ o σ Ho).
  unfold object_getattr.
  destruct (has_slot (ob_type o) attr).
  - destruct (ob_slots o !! attr); reflexivity.
  - destruct (has_dict (ob_type o)); [|reflexivity].
    destruct (ob_dict o !! attr); reflexivity.
Qed.

Lemma setitem_attr_run l attr key v o d σ :
  heap σ !! l = Some o ->
  has_slot (ob_type o) attr = true ->
  ob_slots o !! attr = Some (PyDict d) ->
  setitem_attr l attr key v σ =
    (Ok tt,
     update_object l
       (mkObject (ob_type o)
          (<[attr := PyDict (<[key := v]> d)]> (ob_slots o)) (ob_dict o)) σ).
Proof.
  intros Ho Hs Hd. unfold setitem_attr.
  erewrite bind_run; cycle 1.
  { apply (getattr_run l attr o (PyDict d) σ Ho).
    unfold object_getattr. rewrite Hs, Hd. reflexivity. }
  apply (setattr_run l attr _ o _ σ Ho).
  unfold object_setattr. rewrite Hs. reflexivity.
Qed.

Lemma has_type_NUMBER_TYPES h v : has_type h v NUMBER_TYPES = is_number v.
Proof.
  unfold has_type. destruct v; try reflexivity.
  simpl. destruct (h !! l); reflexivity.
Qed.

Lemma has_type_ARRAY_TYPES h v : has_type h v ARRAY_TYPES = is_array v.
Proof.
  unfold has_type. destruct v; try reflexivity.
  simpl. destruct (h !! l); reflexivity.
Qed.

Lemma isinstance_NUMBER_TYPES v σ :
  isinstance v NUMBER_TYPES σ = (Ok (is_number v), σ).
Proof. unfold isinstance. rewrite has_type_NUMBER_TYPES. reflexivity. Qed.

Lemma isinstance_ARRAY_TYPES v σ :
  isinstance v ARRAY_TYPES σ = (Ok (is_array v), σ).
Proof. unfold isinstance. rewrite has_type_ARRAY_TYPES. reflexivity. Qed.

End monad_facts.

Section data_facts.
Context `{Collaborators}.

Lemma has_slot_values c : has_slot c "_values" = true.
Proof. destruct c; vm_compute; reflexivity. Qed.
Lemma has_slot_unit c : has_slot c "_unit" = true.
Proof. destruct c; vm_compute; reflexivity. Qed.
Lemma has_slot_name c : has_slot c "_name" = true.
Proof. destruct c; vm_compute; reflexivity. Qed.

Lemma ExperimentalValue__init__run l o unit name σ :
  heap σ !! l = Some o ->
  ExperimentalValue__init__ l unit name σ =
    (Ok tt,
     update_object l
       (mkObject (ob_type o)
          (<["_name" := default empty_str name]>
             (<["_unit" := default empty_str unit]>
                (<["_values" := PyDict ∅]> (ob_slots o))))
          (ob_dict o)) σ).
Proof.
  intros Ho. unfold ExperimentalValue__init__.
  erewrite bind_run; cycle 1.
  { eapply setattr_run; [exact Ho|].
    unfold object_setattr. rewrite has_slot_values. reflexivity. }
  erewrite bind_run; cycle 1.
  { eapply setattr_run; [apply heap_update_object|].
    unfold object_setattr; simpl. rewrite has_slot_unit. reflexivity. }
  rewrite update_object_twice.
  erewrite setattr_run; cycle 1.
  { apply heap_update_object. }
  { unfold object_setattr; simpl. rewrite has_slot_name. reflexivity. }
  rewrite update_object_twice. reflexivity.
Qed.

Lemma MeasuredValue__init__run l o value error unit name σ :
  heap σ !! l = Some o ->
  MeasuredValue__init__ l value error unit name σ =
    (Ok tt,
     update_object l
       (mkObject (ob_type o)
          (<["_values" := PyDict {[ RECORDED := PyTuple [value; error] ]}]>
             (<["_name" := default empty_str name]>
                (<["_unit" := default empty_str unit]>
                   (<["_values" := PyDict ∅]> (ob_slots o)))))
          (ob_dict o)) σ).
Proof.
  intros Ho. unfold MeasuredValue__init__.
  erewrite bind_run by (apply (ExperimentalValue__init__run l o), Ho).
  erewrite setitem_attr_run; cycle 1.
  { apply heap_update_object. }
  { apply has_slot_values. }
  { simpl. rewrite !lookup_insert_ne by discriminate.
    apply lookup_insert_eq. }
  rewrite update_object_twice. reflexivity.
Qed.

Lemma new_MeasuredValue_run value error unit name σ :
  new_MeasuredValue value error unit name σ =
    (Ok (PyRef (fresh (dom (heap σ)))),
     update_object (fresh (dom (heap σ)))
       (mkObject MeasuredValue (measured_slots value error unit name) ∅) σ).
Proof.
  unfold new_MeasuredValue.
  erewrite bind_run by reflexivity.
  erewrite bind_run; cycle 1.
  { eapply MeasuredValue__init__run. apply heap_update_object. }
  rewrite update_object_twice. unfold mret, M_ret. simpl.
  repeat f_equal.
Qed.


Lemma has_slot_raw_data : has_slot RepeatedlyMeasuredValue "_raw_data" = true.
Proof. vm_compute. reflexivity. Qed.

Lemma new_RepeatedlyMeasuredValue_run a unit name arr mean std σ :
  np_array a = Ok arr ->
  ndarray_mean arr = Ok mean ->
  ndarray_std arr 0 = Ok std ->
  new_RepeatedlyMeasuredValue a unit name σ =
    (Ok (PyRef (fresh (dom (heap σ)))),
     update_object (fresh (dom (heap σ)))
       (mkObject RepeatedlyMeasuredValue
          (<["_raw_data" := arr]>
             (measured_slots mean std empty_str empty_str)) ∅) σ).
Proof.
  intros Harr Hmean Hstd. unfold new_RepeatedlyMeasuredValue.
  erewrite bind_run by reflexivity.
  erewrite bind_run; cycle 1.
  { unfold RepeatedlyMeasuredValue__init__.
    erewrite bind_run; cycle 1.
    { eapply MeasuredValue__init__run. apply heap_update_object. }
    rewrite update_object_twice.
    erewrite bind_run by (rewrite Harr; reflexivity).
    erewrite bind_run by (rewrite Hmean; reflexivity).
    erewrite bind_run by (rewrite Hstd; reflexivity).
    erewrite bind_run; cycle 1.
    { eapply setitem_attr_run.
      - apply heap_update_object.
      - apply has_slot_values.
      - simpl. apply lookup_insert_eq. }
    rewrite update_object_twice.
    eapply setattr_run; [apply heap_update_object|].
    unfold object_setattr. cbn [ob_type]. rewrite has_slot_raw_data.
    reflexivity. }
  rewrite update_object_twice. unfold mret, M_ret. simpl.
  repeat f_equal.
Qed.

(** The tests of [Measurement] do not depend on the state. *)
Lemma Measurement_tests args kwargs σ :
  Measurement args kwargs σ =
    (let arg i := nth i args PyNone in
     let kwarg k := lift (py_getitem (PyDict kwargs) (PyStr k)) in
     let len := length args in
     if (len =? 1)%nat && is_array (arg 0%nat) then
       unit ← kwarg "unit";
       name ← kwarg "name";
       new_RepeatedlyMeasuredValue (arg 0%nat) unit name
     else if (len =? 1)%nat && is_number (arg 0%nat) then
       value ← lift (py_float (arg 0%nat));
       unit ← kwarg "unit";
       name ← kwarg "name";
       new_MeasuredValue value (PyInt 0) unit name
     else if (len =? 2)%nat && is_number (arg 0%nat) && is_number (arg 1%nat) then
       value ← lift (py_float (arg 0%nat));
       error ← lift (py_float (arg 1%nat));
       unit ← kwarg "unit";
       name ← kwarg "name";
       new_MeasuredValue value error unit name
     else
       print measurement_message;;
       mret PyNone) σ.
Proof.
  unfold Measurement.
  erewrite bind_run by apply isinstance_ARRAY_TYPES.
  erewrite bind_run by apply isinstance_NUMBER_TYPES.
  erewrite bind_run by apply isinstance_NUMBER_TYPES.
  reflexivity.
Qed.

Lemma kwarg_run (kwargs : gmap string pyval) k v σ :
  kwargs !! k = Some v ->
  lift (py_getitem (PyDict kwargs) (PyStr k)) σ = (Ok v, σ).
Proof. intros Hk. unfold lift; simpl. rewrite Hk. reflexivity. Qed.

Lemma is_number_not_array x : is_number x = true -> is_array x = false.
Proof. destruct x; simpl; congruence. Qed.

Lemma Measurement_one_number x v kwargs unit name σ :
  kwargs !! "unit" = Some unit -> kwargs !! "name" = Some name ->
  is_number x = true -> py_float x = Ok v ->
  Measurement [x] kwargs σ = new_MeasuredValue v (PyInt 0) unit name σ.
Proof.
  intros Hu Hn Hx Hv. rewrite Measurement_tests. simpl.
  rewrite (is_number_not_array x Hx), Hx. simpl.
  erewrite bind_run by (rewrite Hv; reflexivity).
  erewrite bind_run by (apply kwarg_run, Hu).
  erewrite bind_run by (apply kwarg_run, Hn).
  reflexivity.
Qed.

Lemma Measurement_two_numbers x y v e kwargs unit name σ :
  kwargs !! "unit" = Some unit -> kwargs !! "name" = Some name ->
  is_number x = true -> is_number y = true ->
  py_float x = Ok v -> py_float y = Ok e ->
  Measurement [x; y] kwargs σ = new_MeasuredValue v e unit name σ.
Proof.
  intros Hu Hn Hx Hy Hv He. rewrite Measurement_tests. simpl.
  rewrite Hx, Hy. simpl.
  erewrite bind_run by (rewrite Hv; reflexivity).
  erewrite bind_run by (rewrite He; reflexivity).
  erewrite bind_run by (apply kwarg_run, Hu).
  erewrite bind_run by (apply kwarg_run, Hn).
  reflexivity.
Qed.

Lemma Measurement_one_array a kwargs unit name σ :
  kwargs !! "unit" = Some unit -> kwargs !! "name" = Some name ->
  is_array a = true ->
  Measurement [a] kwargs σ = new_RepeatedlyMeasuredValue a unit name σ.
Proof.
  intros Hu Hn Ha. rewrite Measurement_tests. simpl. rewrite Ha. simpl.
  erewrite bind_run by (apply kwarg_run, Hu).
  erewrite bind_run by (apply kwarg_run, Hn).
  reflexivity.
Qed.

(** [float()] of a number fails in one way only: an [int] beyond the
    range of binary64. *)
Lemma py_float_of_number x :
  is_number x = true ->
  (exists f, py_float x = Ok (PyFloat f)) \/ py_float x = Raise OverflowError.
Proof.
  destruct x as [|b|n|f| | | | | | | | |]; simpl; try discriminate; intros _.
  - left. eexists. reflexivity.
  - destruct (float_of_Z n); [left; eexists; reflexivity|right; reflexivity
                             |left; eexists; reflexivity..].
  - left. eexists. reflexivity.
Qed.

(** When [float()] fails the factory raises before it reads a keyword
    or makes an instance. *)
Lemma Measurement_one_number_raises x e kwargs σ :
  is_number x = true -> py_float x = Raise e ->
  Measurement [x] kwargs σ = (Raise e, σ).
Proof.
  intros Hx He. rewrite Measurement_tests. simpl.
  rewrite (is_number_not_array x Hx), Hx. simpl.
  apply bind_raise. unfold lift. rewrite He. reflexivity.
Qed.

Lemma Measurement_first_number_raises x y e kwargs σ :
  is_number x = true -> is_number y = true -> py_float x = Raise e ->
  Measurement [x; y] kwargs σ = (Raise e, σ).
Proof.
  intros Hx Hy Hv. rewrite Measurement_tests. simpl. rewrite Hx, Hy. simpl.
  apply bind_raise. unfold lift. rewrite Hv. reflexivity.
Qed.

Lemma Measurement_second_number_raises x y v e kwargs σ :
  is_number x = true -> is_number y = true ->
  py_float x = Ok v -> py_float y = Raise e ->
  Measurement [x; y] kwargs σ = (Raise e, σ).
Proof.
  intros Hx Hy Hv Hw. rewrite Measurement_tests. simpl. rewrite Hx, Hy. simpl.
  erewrite bind_run by (rewrite Hv; reflexivity).
  apply bind_raise. unfold lift. rewrite Hw. reflexivity.
Qed.

Lemma samples_are_array a fs : samples_of a = Some fs -> is_array a = true.
Proof. destruct a; simpl; try discriminate; reflexivity. Qed.

End data_facts.

Section setter_facts.
Context `{Collaborators}.

Lemma positive_number_run v σ :
  positive_number v σ = (Ok (strictly_positive v), σ).
Proof.
  unfold positive_number.
  erewrite bind_run by apply isinstance_NUMBER_TYPES.
  destruct v; reflexivity.
Qed.

Lemma MeasuredValue_value_run l o vals x e σ :
  heap σ !! l = Some o ->
  ob_slots o !! "_values" = Some (PyDict vals) ->
  vals !! RECORDED = Some (PyTuple [x; e]) ->
  MeasuredValue_value l σ = (Ok x, σ).
Proof.
  intros Ho Hvals Hpair. unfold MeasuredValue_value.
  erewrite bind_run; cycle 1.
  { apply (getattr_run l _ o (PyDict vals) σ Ho).
    unfold object_getattr. rewrite has_slot_values, Hvals. reflexivity. }
  erewrite bind_run by (unfold lift; simpl; rewrite Hpair; reflexivity).
  reflexivity.
Qed.

Lemma MeasuredValue_error_run l o vals x e σ :
  heap σ !! l = Some o ->
  ob_slots o !! "_values" = Some (PyDict vals) ->
  vals !! RECORDED = Some (PyTuple [x; e]) ->
  MeasuredValue_error l σ = (Ok e, σ).
Proof.
  intros Ho Hvals Hpair. unfold MeasuredValue_error.
  erewrite bind_run; cycle 1.
  { apply (getattr_run l _ o (PyDict vals) σ Ho).
    unfold object_getattr. rewrite has_slot_values, Hvals. reflexivity. }
  erewrite bind_run by (unfold lift; simpl; rewrite Hpair; reflexivity).
  reflexivity.
Qed.

Lemma demote_plain warning l o σ :
  heap σ !! l = Some o ->
  ob_type o = MeasuredValue ->
  ob_dict o !! "_raw_data" = None ->
  demote warning l σ = (Ok tt, σ).
Proof.
  intros Ho Hty Hraw. unfold demote.
  erewrite bind_run by (apply (hasattr_run l _ o σ Ho)).
  unfold object_getattr. rewrite Hty.
  replace (has_slot MeasuredValue "_raw_data") with false
    by (vm_compute; reflexivity).
  replace (has_dict MeasuredValue) with true by (vm_compute; reflexivity).
  rewrite Hraw. reflexivity.
Qed.

Lemma demote_repeated warning l o arr σ :
  heap σ !! l = Some o ->
  ob_type o = RepeatedlyMeasuredValue ->
  ob_slots o !! "_raw_data" = Some arr ->
  demote warning l σ = (Raise TypeError, printed warning σ).
Proof.
  intros Ho Hty Hraw. unfold demote.
  erewrite bind_run by (apply (hasattr_run l _ o σ Ho)).
  unfold object_getattr. rewrite Hty, has_slot_raw_data, Hraw. simpl.
  erewrite bind_run by reflexivity.
  apply (write_object_raise l _ o).
  - exact Ho.
  - unfold object_set_class. rewrite Hty. reflexivity.
Qed.

Lemma MeasuredValue_value_setter_run l o vals x e v σ :
  heap σ !! l = Some o ->
  ob_slots o !! "_values" = Some (PyDict vals) ->
  vals !! RECORDED = Some (PyTuple [x; e]) ->
  is_number v = true ->
  MeasuredValue_value_setter l v σ =
    demote value_warning l
      (update_object l (set_pair o vals (PyTuple [v; e])) σ).
Proof.
  intros Ho Hvals Hpair Hv. unfold MeasuredValue_value_setter.
  erewrite bind_run by apply isinstance_NUMBER_TYPES. rewrite Hv.
  erewrite bind_run; cycle 1.
  { apply (getattr_run l _ o (PyDict vals) σ Ho).
    unfold object_getattr. rewrite has_slot_values, Hvals. reflexivity. }
  erewrite bind_run by (unfold lift; simpl; rewrite Hpair; reflexivity).
  erewrite bind_run by reflexivity.
  erewrite bind_run; cycle 1.
  { apply (setitem_attr_run l _ _ _ o vals σ Ho (has_slot_values _) Hvals). }
  reflexivity.
Qed.

Lemma MeasuredValue_error_setter_run l o vals x e v σ :
  heap σ !! l = Some o ->
  ob_slots o !! "_values" = Some (PyDict vals) ->
  vals !! RECORDED = Some (PyTuple [x; e]) ->
  strictly_positive v = true ->
  MeasuredValue_error_setter l v σ =
    demote error_warning l
      (update_object l (set_pair o vals (PyTuple [x; v])) σ).
Proof.
  intros Ho Hvals Hpair Hv. unfold MeasuredValue_error_setter.
  erewrite bind_run by apply positive_number_run. rewrite Hv.
  erewrite bind_run; cycle 1.
  { apply (getattr_run l _ o (PyDict vals) σ Ho).
    unfold object_getattr. rewrite has_slot_values, Hvals. reflexivity. }
  erewrite bind_run by (unfold lift; simpl; rewrite Hpair; reflexivity).
  erewrite bind_run by reflexivity.
  erewrite bind_run; cycle 1.
  { apply (setitem_attr_run l _ _ _ o vals σ Ho (has_slot_values _) Hvals). }
  reflexivity.
Qed.

Lemma MeasuredValue_error_setter_rejects l v σ :
  strictly_positive v = false ->
  MeasuredValue_error_setter l v σ = (Ok tt, printed error_error_message σ).
Proof.
  intros Hv. unfold MeasuredValue_error_setter.
  erewrite bind_run by apply positive_number_run. rewrite Hv. reflexivity.
Qed.

End setter_facts.

Section printing_facts.
Context `{Collaborators}.

Lemma show_pair_inf rest σ :
  show_pair (PyTuple (PyFloat float_inf :: rest)) σ = (Ok "inf", σ).
Proof. reflexivity. Qed.

Lemma dot_value_enum g k σ :
  enum_value g = Some k -> dot_value g σ = (Ok (PyStr k), σ).
Proof. destruct g; simpl; try discriminate; intros [= <-]; reflexivity. Qed.

Lemma Function_slot_run l o attr v σ :
  heap σ !! l = Some o ->
  has_slot (ob_type o) attr = true ->
  ob_slots o !! attr = Some v ->
  getattr l attr σ = (Ok v, σ).
Proof.
  intros Ho Hs Hv. apply (getattr_run l attr o v σ Ho).
  unfold object_getattr. rewrite Hs, Hv. reflexivity.
Qed.

Lemma Function_print_value_pinned l o vals method key pair σ :
  heap σ !! l = Some o ->
  ob_type o = Function ->
  ob_slots o !! "_values" = Some (PyDict vals) ->
  ob_slots o !! "_is_error_method_specified" = Some (PyBool true) ->
  ob_slots o !! "_error_method" = Some method ->
  enum_value method = Some key ->
  vals !! key = Some pair ->
  Function_print_value l σ = show_pair pair σ.
Proof.
  intros Ho Hty Hvals Hspec Hmeth Hkey Hpair. unfold Function_print_value.
  erewrite bind_run; cycle 1.
  { apply (Function_slot_run l o _ _ σ Ho); [|exact Hspec].
    rewrite Hty. vm_compute. reflexivity. }
  erewrite bind_run by reflexivity.
  erewrite bind_run; [reflexivity|].
  erewrite bind_run; cycle 1.
  { apply (Function_slot_run l o _ _ σ Ho (has_slot_values _) Hvals). }
  erewrite bind_run; cycle 1.
  { apply (Function_slot_run l o _ _ σ Ho); [|exact Hmeth].
    rewrite Hty. vm_compute. reflexivity. }
  erewrite bind_run by (apply dot_value_enum, Hkey).
  unfold lift; simpl. rewrite Hpair. reflexivity.
Qed.

Lemma Function_print_value_default l o vals method key pair σ :
  heap σ !! l = Some o ->
  ob_type o = Function ->
  ob_slots o !! "_values" = Some (PyDict vals) ->
  ob_slots o !! "_is_error_method_specified" = Some (PyBool false) ->
  config σ !! ERROR_METHOD = Some method ->
  enum_value method = Some key ->
  vals !! key = Some pair ->
  Function_print_value l σ = show_pair pair σ.
Proof.
  intros Ho Hty Hvals Hspec Hmeth Hkey Hpair. unfold Function_print_value.
  erewrite bind_run; cycle 1.
  { apply (Function_slot_run l o _ _ σ Ho); [|exact Hspec].
    rewrite Hty. vm_compute. reflexivity. }
  erewrite bind_run by reflexivity.
  erewrite bind_run; [reflexivity|].
  erewrite bind_run; cycle 1.
  { apply (Function_slot_run l o _ _ σ Ho (has_slot_values _) Hvals). }
  erewrite bind_run; cycle 1.
  { unfold get_error_method, config_getitem. rewrite Hmeth. reflexivity. }
  erewrite bind_run by (apply dot_value_enum, Hkey).
  unfold lift; simpl. rewrite Hpair. reflexivity.
Qed.

Lemma Function__init__run l o results unit name error_method σ :
  heap σ !! l = Some o ->
  ob_type o = Function ->
  Function__init__ l results unit name error_method σ =
    match py_bool (default PyNone error_method) with
    | Ok true =>
        (Ok tt,
         update_object l
           (mkObject Function
              (<["_error_method" := default PyNone error_method]>
                 (<["_is_error_method_specified" := PyBool true]>
                    (<["_values" := results]>
                       (<["_name" := default empty_str name]>
                          (<["_unit" := default empty_str unit]>
                             (<["_values" := PyDict ∅]> (ob_slots o)))))))
              (ob_dict o)) σ)
    | Ok false =>
        match config σ !! ERROR_METHOD with
        | Some global =>
            (Ok tt,
             update_object l
               (mkObject Function
                  (<["_error_method" := global]>
                     (<["_is_error_method_specified" := PyBool false]>
                        (<["_values" := results]>
                           (<["_name" := default empty_str name]>
                              (<["_unit" := default empty_str unit]>
                                 (<["_values" := PyDict ∅]> (ob_slots o)))))))
                  (ob_dict o)) σ)
        | None =>
            (Raise (KeyError (PyStr ERROR_METHOD)),
             update_object l
               (mkObject Function
                  (<["_is_error_method_specified" := PyBool false]>
                     (<["_values" := results]>
                        (<["_name" := default empty_str name]>
                           (<["_unit" := default empty_str unit]>
                              (<["_values" := PyDict ∅]> (ob_slots o))))))
                  (ob_dict o)) σ)
        end
    | Raise e =>
        (Raise e,
         update_object l
           (mkObject Function
              (<["_values" := results]>
                 (<["_name" := default empty_str name]>
                    (<["_unit" := default empty_str unit]>
                       (<["_values" := PyDict ∅]> (ob_slots o)))))
              (ob_dict o)) σ)
    end.
Proof.
  intros Ho Hty. unfold Function__init__.
  erewrite bind_run by (apply (ExperimentalValue__init__run l o), Ho).
  rewrite Hty.
  erewrite bind_run; cycle 1.
  { eapply setattr_run; [apply heap_update_object|].
    unfold object_setattr. cbn [ob_type]. rewrite has_slot_values.
    reflexivity. }
  rewrite update_object_twice. cbn [ob_type ob_slots ob_dict].
  unfold mbind at 1, M_bind at 1, lift.
  destruct (py_bool (default PyNone error_method)) as [[]|e]; [| |reflexivity].
  - erewrite bind_run; cycle 1.
    { eapply setattr_run; [apply heap_update_object|].
      unfold object_setattr. cbn [ob_type].
      replace (has_slot Function "_is_error_method_specified") with true
        by (vm_compute; reflexivity).
      reflexivity. }
    rewrite update_object_twice. cbn [ob_type ob_slots ob_dict].
    erewrite setattr_run; cycle 1.
    { apply heap_update_object. }
    { unfold object_setattr. cbn [ob_type].
      replace (has_slot Function "_error_method") with true
        by (vm_compute; reflexivity).
      reflexivity. }
    rewrite update_object_twice. reflexivity.
  - erewrite bind_run; cycle 1.
    { eapply setattr_run; [apply heap_update_object|].
      unfold object_setattr. cbn [ob_type].
      replace (has_slot Function "_is_error_method_specified") with true
        by (vm_compute; reflexivity).
      reflexivity. }
    rewrite update_object_twice. cbn [ob_type ob_slots ob_dict].
    unfold mbind at 1, M_bind at 1, get_error_method, config_getitem.
    cbn [config update_object].
    destruct (config σ !! ERROR_METHOD) as [global|]; [|reflexivity].
    cbn [from_option].
    erewrite setattr_run; cycle 1.
    { apply heap_update_object. }
    { unfold object_setattr. cbn [ob_type].
      replace (has_slot Function "_error_method") with true
        by (vm_compute; reflexivity).
      reflexivity. }
    rewrite update_object_twice. reflexivity.
Qed.

Lemma new_Function_pinned results unit name (m : ErrorMethod) σ :
  new_Function results (Some unit) (Some name) (Some (PyErrorMethod m)) σ =
    (Ok (PyRef (fresh (dom (heap σ)))),
     update_object (fresh (dom (heap σ)))
       (mkObject Function
          (function_slots results unit name true (PyErrorMethod m)) ∅) σ).
Proof.
  unfold new_Function.
  erewrite bind_run by reflexivity.
  erewrite bind_run; cycle 1.
  { rewrite (Function__init__run _ (mkObject Function ∅ ∅))
      by (reflexivity || apply heap_update_object).
    reflexivity. }
  rewrite update_object_twice. unfold mret, M_ret. simpl.
  repeat f_equal.
Qed.

Lemma new_Function_default results unit name global σ :
  config σ !! ERROR_METHOD = Some global ->
  new_Function results (Some unit) (Some name) None σ =
    (Ok (PyRef (fresh (dom (heap σ)))),
     update_object (fresh (dom (heap σ)))
       (mkObject Function
          (function_slots results unit name false global) ∅) σ).
Proof.
  intros Hg. unfold new_Function.
  erewrite bind_run by reflexivity.
  erewrite bind_run; cycle 1.
  { rewrite (Function__init__run _ (mkObject Function ∅ ∅))
      by (reflexivity || apply heap_update_object).
    cbn [default py_bool config update_object]. rewrite Hg. reflexivity. }
  rewrite update_object_twice. unfold mret, M_ret. simpl.
  repeat f_equal.
Qed.

End printing_facts.

Section data_theorems.
Context `{Collaborators}.

(** The instance built from an array has the empty string as its name
    and as its unit, whatever the keywords say. *)
Lemma array_measurement_drops_keywords a arr mean std kwargs unit name σ :
  kwargs !! "unit" = Some unit -> kwargs !! "name" = Some name ->
  is_array a = true -> np_array a = Ok arr ->
  ndarray_mean arr = Ok mean -> ndarray_std arr 0 = Ok std ->
  exists o,
    Measurement [a] kwargs σ
      = (Ok (PyRef (fresh (dom (heap σ)))),
         update_object (fresh (dom (heap σ))) o σ)
    /\ object_getattr o "_unit" = Ok empty_str
    /\ object_getattr o "_name" = Ok empty_str.
Proof.
  intros Hu Hn Ha Harr Hmean Hstd. eexists. split.
  - rewrite (Measurement_one_array a kwargs unit name σ Hu Hn Ha).
    apply (new_RepeatedlyMeasuredValue_run a _ _ arr mean std _ Harr Hmean Hstd).
  - split; vm_compute; reflexivity.
Qed.

(** Without the keyword [unit] no call of a shape that the factory accepts
    returns: it raises, and the state is as before. *)
Lemma Measurement_without_unit args kwargs σ :
  kwargs !! "unit" = None -> dispatchable args = true ->
  exists e, Measurement args kwargs σ = (Raise e, σ).
Proof.
  intros Hu Hargs.
  assert (Hkw : lift (py_getitem (PyDict kwargs) (PyStr "unit")) σ
                = (Raise (KeyError (PyStr "unit")), σ)).
  { unfold lift; simpl. rewrite Hu. reflexivity. }
  rewrite Measurement_tests.
  destruct args as [|a [|b [|c rest]]]; simpl in Hargs |- *;
    try discriminate.
  - destruct (is_array a); simpl.
    + eexists. apply bind_raise, Hkw.
    + simpl in Hargs. rewrite Hargs.
      destruct (py_float a) as [v|e] eqn:Hv.
      * eexists. erewrite bind_run by reflexivity.
        apply bind_raise, Hkw.
      * eexists. apply bind_raise. reflexivity.
  - rewrite Hargs.
    destruct (py_float a) as [v|e] eqn:Hv.
    + erewrite bind_run by reflexivity.
      destruct (py_float b) as [w|e] eqn:Hw.
      * eexists. erewrite bind_run by reflexivity.
        apply bind_raise, Hkw.
      * eexists. apply bind_raise. reflexivity.
    + eexists. apply bind_raise. reflexivity.
Qed.

(** C2, at the three valid argument shapes without keywords: the factory
    raises [KeyError('unit')] before any instance exists, and with [unit]
    alone it raises [KeyError('name')]. *)
Theorem Measurement_keywords_are_required :
  Measurement [PyInt 12] ∅ initial_state
    = (Raise (KeyError (PyStr "unit")), initial_state)
  /\ Measurement [PyInt 12; PyInt 1] ∅ initial_state
    = (Raise (KeyError (PyStr "unit")), initial_state)
  /\ Measurement [PyList [PyInt 1; PyInt 2; PyInt 4]] ∅ initial_state
    = (Raise (KeyError (PyStr "unit")), initial_state)
  /\ Measurement [PyInt 12; PyInt 1] {[ "unit" := PyStr "m" ]} initial_state
    = (Raise (KeyError (PyStr "name")), initial_state).
Proof. repeat split; vm_compute; reflexivity. Qed.

(** C3, as amended.  When both keywords are supplied: one number [x]
    gives a [MeasuredValue] holding [(float(x), 0)], and two numbers give
    a [MeasuredValue] holding [(float(x), float(y))]; when [float()]
    fails, which for a number is the [OverflowError] of an [int] beyond
    the range of binary64, the factory raises it and nothing is made.
    One list or array, whatever it holds, gives a
    [RepeatedlyMeasuredValue] holding the [mean()] and the [std()] of the
    numpy array made from it, [std] with its default [ddof = 0].  For a
    non-empty array of N numbers, and numpy computing as documented,
    these are the arithmetic mean, the sum of the samples divided by N,
    and the population standard deviation, the square root of the sum of
    the squared deviations divided by N and not by N - 1.  Whatever the
    keywords, any other shape of the positional arguments prints the
    error message and returns [None]. *)
Theorem Measurement_dispatch kwargs unit name σ :
  kwargs !! "unit" = Some unit ->
  kwargs !! "name" = Some name ->
  let l := fresh (dom (heap σ)) in
  (forall x,
     is_number x = true ->
     Measurement [x] kwargs σ =
       match py_float x with
       | Ok v =>
           (Ok (PyRef l),
            update_object l
              (mkObject MeasuredValue
                 (measured_slots v (PyInt 0) unit name) ∅) σ)
       | Raise e => (Raise e, σ)
       end)
  /\ (forall x y,
        is_number x = true -> is_number y = true ->
        Measurement [x; y] kwargs σ =
          match py_float x, py_float y with
          | Ok v, Ok e =>
              (Ok (PyRef l),
               update_object l
                 (mkObject MeasuredValue (measured_slots v e unit name) ∅) σ)
          | Raise e, _ | Ok _, Raise e => (Raise e, σ)
          end)
  /\ (forall x,
        is_number x = true ->
        (exists f, py_float x = Ok (PyFloat f))
        \/ py_float x = Raise OverflowError)
  /\ (forall a arr mean std,
        is_array a = true -> np_array a = Ok arr ->
        ndarray_mean arr = Ok mean -> ndarray_std arr 0 = Ok std ->
        Measurement [a] kwargs σ =
          (Ok (PyRef l),
           update_object l
             (mkObject RepeatedlyMeasuredValue
                (<["_raw_data" := arr]>
                   (measured_slots mean std empty_str empty_str)) ∅) σ))
  /\ (forall sum a fs,
        computes_statistics sum ->
        samples_of a = Some fs -> fs <> [] ->
        exists arr,
          np_array a = Ok arr
          /\ Measurement [a] kwargs σ =
               (Ok (PyRef l),
                update_object l
                  (mkObject RepeatedlyMeasuredValue
                     (<["_raw_data" := arr]>
                        (measured_slots
                           (PyFloat (arithmetic_mean sum fs))
                           (PyFloat (standard_deviation sum fs
                                       (Z.of_nat (length fs))))
                           empty_str empty_str)) ∅) σ))
  /\ (forall args kwargs',
        dispatchable args = false ->
        Measurement args kwargs' σ = (Ok PyNone, printed measurement_message σ)).
Proof.
  intros Hu Hn l.
  assert (Harray : forall a arr mean std,
    is_array a = true -> np_array a = Ok arr ->
    ndarray_mean arr = Ok mean -> ndarray_std arr 0 = Ok std ->
    Measurement [a] kwargs σ =
      (Ok (PyRef l),
       update_object l
         (mkObject RepeatedlyMeasuredValue
            (<["_raw_data" := arr]>
               (measured_slots mean std empty_str empty_str)) ∅) σ)).
  { intros a arr mean std Ha Harr Hmean Hstd.
    rewrite (Measurement_one_array a kwargs unit name σ Hu Hn Ha).
    apply (new_RepeatedlyMeasuredValue_run a _ _ arr mean std σ
             Harr Hmean Hstd). }
  split; [|split; [|split; [|split; [|split]]]].
  - intros x Hx. destruct (py_float x) as [v|e] eqn:Hv.
    + rewrite (Measurement_one_number x v kwargs unit name σ Hu Hn Hx Hv).
      apply new_MeasuredValue_run.
    + apply (Measurement_one_number_raises x e kwargs σ Hx Hv).
  - intros x y Hx Hy. destruct (py_float x) as [v|e] eqn:Hv.
    + destruct (py_float y) as [w|e] eqn:Hw.
      * rewrite (Measurement_two_numbers x y v w kwargs unit name σ
                   Hu Hn Hx Hy Hv Hw).
        apply new_MeasuredValue_run.
      * apply (Measurement_second_number_raises x y v e kwargs σ Hx Hy Hv Hw).
    + apply (Measurement_first_number_raises x y e kwargs σ Hx Hy Hv).
  - apply py_float_of_number.
  - exact Harray.
  - intros sum a fs [_ Hnumpy] Ha Hfs.
    destruct (Hnumpy a fs Ha Hfs) as (arr & Harr & Hmean & Hstd).
    exists arr. split; [exact Harr|].
    apply (Harray a arr _ _ (samples_are_array a fs Ha) Harr Hmean).
    rewrite (Hstd 0) by lia. rewrite Z.sub_0_r. reflexivity.
  - intros args kwargs' Hargs. rewrite Measurement_tests.
    destruct args as [|a [|b [|c rest]]]; simpl in Hargs |- *;
      try reflexivity.
    + apply orb_false_elim in Hargs as [-> ->]. reflexivity.
    + destruct (is_number a), (is_number b); try discriminate; reflexivity.
Qed.

(** C5.  On a [RepeatedlyMeasuredValue] that holds its raw data,
    assigning a number to [.value], or a positive number to [.error],
    stores the new pair and prints the warning, and then the assignment
    to [__class__] raises [TypeError]: the class adds the slot
    [_raw_data] to the layout of [MeasuredValue].  The setter does not
    return normally, the class of the instance is unchanged and
    [raw_data] still answers with the samples. *)
Theorem setters_fail_on_repeated_measurement l o vals x e arr v σ :
  heap σ !! l = Some o ->
  ob_type o = RepeatedlyMeasuredValue ->
  ob_slots o !! "_values" = Some (PyDict vals) ->
  vals !! RECORDED = Some (PyTuple [x; e]) ->
  ob_slots o !! "_raw_data" = Some arr ->
  (is_number v = true ->
   let o' := set_pair o vals (PyTuple [v; e]) in
   let σ' := printed value_warning (update_object l o' σ) in
   MeasuredValue_value_setter l v σ = (Raise TypeError, σ')
   /\ ob_type o' = RepeatedlyMeasuredValue
   /\ raw_data l σ' = (Ok arr, σ'))
  /\ (strictly_positive v = true ->
      let o' := set_pair o vals (PyTuple [x; v]) in
      let σ' := printed error_warning (update_object l o' σ) in
      MeasuredValue_error_setter l v σ = (Raise TypeError, σ')
      /\ ob_type o' = RepeatedlyMeasuredValue
      /\ raw_data l σ' = (Ok arr, σ')).
Proof.
  intros Ho Hty Hvals Hpair Hraw.
  assert (Hread : forall w pair,
    raw_data l (printed w (update_object l (set_pair o vals pair) σ))
    = (Ok arr, printed w (update_object l (set_pair o vals pair) σ))).
  { intros w pair. unfold raw_data.
    erewrite read_object_run by apply heap_update_object.
    cbv beta. unfold object_getattr, set_pair. cbn [ob_type ob_slots].
    rewrite Hty, has_slot_raw_data.
    rewrite lookup_insert_ne by discriminate. rewrite Hraw. reflexivity. }
  split; intros Hv; cbv zeta; (split; [|split; [exact Hty|apply Hread]]).
  - rewrite (MeasuredValue_value_setter_run l o vals x e v σ Ho Hvals Hpair Hv).
    apply (demote_repeated _ l (set_pair o vals (PyTuple [v; e])) arr).
    + apply heap_update_object.
    + exact Hty.
    + cbn [set_pair ob_slots]. rewrite lookup_insert_ne by discriminate.
      exact Hraw.
  - rewrite (MeasuredValue_error_setter_run l o vals x e v σ Ho Hvals Hpair Hv).
    apply (demote_repeated _ l (set_pair o vals (PyTuple [x; v])) arr).
    + apply heap_update_object.
    + exact Hty.
    + cbn [set_pair ob_slots]. rewrite lookup_insert_ne by discriminate.
      exact Hraw.
Qed.

(** C6, at [Measurement(12, -1, unit="m", name="length")]: the factory
    returns an instance whose uncertainty is [-1.0], below zero.  The
    setter of [relative_error] does the same on a negative value: after
    [Measurement(-2, 1, ...)], assigning [1.0] stores the uncertainty
    [-2.0]. *)
Theorem Measurement_stores_negative_uncertainty :
  let made := Measurement [PyInt 12; PyInt (-1)] (keywords "m" "length")
                initial_state in
  fst made = Ok (PyRef 1%positive)
  /\ fst (MeasuredValue_error 1%positive (snd made))
     = Ok (PyFloat (float_of_Z (-1)))
  /\ SFltb (float_of_Z (-1)) float_zero = true
  /\ (let made := Measurement [PyInt (-2); PyInt 1] (keywords "m" "length")
                    initial_state in
      let set := MeasuredValue_relative_error_setter 1%positive
                   (PyFloat (float_of_Z 1)) (snd made) in
      fst set = Ok tt
      /\ fst (MeasuredValue_error 1%positive (snd set))
         = Ok (PyFloat (float_of_Z (-2)))).
Proof. vm_compute. repeat split. Qed.

(** C9.  An instance whose recorded value is [float('inf')] prints as
    "inf" in every state of the interpreter, hence under every print
    style and significant-figure mode, and with every printer.  So does a
    [Function] when the pair it selects, through its own error method if
    one was specified and through the global one otherwise, has the value
    [float('inf')]. *)
Theorem infinite_value_prints_inf l o vals σ :
  heap σ !! l = Some o ->
  ob_slots o !! "_values" = Some (PyDict vals) ->
  (forall rest,
     vals !! RECORDED = Some (PyTuple (PyFloat float_inf :: rest)) ->
     MeasuredValue_print_value l σ = (Ok "inf", σ))
  /\ (forall method key rest,
        ob_type o = Function ->
        ob_slots o !! "_is_error_method_specified" = Some (PyBool true) ->
        ob_slots o !! "_error_method" = Some method ->
        enum_value method = Some key ->
        vals !! key = Some (PyTuple (PyFloat float_inf :: rest)) ->
        Function_print_value l σ = (Ok "inf", σ))
  /\ (forall method key rest,
        ob_type o = Function ->
        ob_slots o !! "_is_error_method_specified" = Some (PyBool false) ->
        config σ !! ERROR_METHOD = Some method ->
        enum_value method = Some key ->
        vals !! key = Some (PyTuple (PyFloat float_inf :: rest)) ->
        Function_print_value l σ = (Ok "inf", σ)).
Proof.
  intros Ho Hvals. repeat split.
  - intros rest Hpair. unfold MeasuredValue_print_value.
    erewrite bind_run; cycle 1.
    { apply (Function_slot_run l o _ _ σ Ho (has_slot_values _) Hvals). }
    erewrite bind_run by (unfold lift; simpl; rewrite Hpair; reflexivity).
    apply show_pair_inf.
  - intros method key rest Hty Hspec Hmeth Hkey Hpair.
    rewrite (Function_print_value_pinned l o vals method key _ σ
               Ho Hty Hvals Hspec Hmeth Hkey Hpair).
    apply show_pair_inf.
  - intros method key rest Hty Hspec Hmeth Hkey Hpair.
    rewrite (Function_print_value_default l o vals method key _ σ
               Ho Hty Hvals Hspec Hmeth Hkey Hpair).
    apply show_pair_inf.
Qed.

(** C10.  The setter of [error] refuses every value that is not a
    strictly positive number: it prints its message and returns, the
    heap, and with it the stored pair, as before.  It stores a strictly
    positive number on a plain [MeasuredValue].  Yet the factory called
    with one number builds an instance whose uncertainty is the integer
    0, which the setter then refuses to assign. *)
Theorem error_setter_accepts_positive_numbers_only :
  (forall l v σ,
     strictly_positive v = false ->
     MeasuredValue_error_setter l v σ = (Ok tt, printed error_error_message σ)
     /\ heap (printed error_error_message σ) = heap σ)
  /\ (forall l o vals x e v σ,
        heap σ !! l = Some o ->
        ob_type o = MeasuredValue ->
        ob_dict o !! "_raw_data" = None ->
        ob_slots o !! "_values" = Some (PyDict vals) ->
        vals !! RECORDED = Some (PyTuple [x; e]) ->
        strictly_positive v = true ->
        MeasuredValue_error_setter l v σ
        = (Ok tt, update_object l (set_pair o vals (PyTuple [x; v])) σ))
  /\ (forall x v kwargs unit name σ,
        kwargs !! "unit" = Some unit -> kwargs !! "name" = Some name ->
        is_number x = true -> py_float x = Ok v ->
        exists l σ',
          Measurement [x] kwargs σ = (Ok (PyRef l), σ')
          /\ MeasuredValue_error l σ' = (Ok (PyInt 0), σ')
          /\ MeasuredValue_error_setter l (PyInt 0) σ'
             = (Ok tt, printed error_error_message σ')).
Proof.
  repeat split.
  - apply MeasuredValue_error_setter_rejects. assumption.
  - intros l o vals x e v σ Ho Hty Hraw Hvals Hpair Hv.
    rewrite (MeasuredValue_error_setter_run l o vals x e v σ Ho Hvals Hpair Hv).
    apply (demote_plain _ l (set_pair o vals (PyTuple [x; v]))).
    + apply heap_update_object.
    + exact Hty.
    + exact Hraw.
  - intros x v kwargs unit name σ Hu Hn Hx Hv.
    eexists _, _. split; [|split].
    + rewrite (Measurement_one_number x v kwargs unit name σ Hu Hn Hx Hv).
      apply new_MeasuredValue_run.
    + eapply MeasuredValue_error_run.
      * apply heap_update_object.
      * reflexivity.
      * reflexivity.
    + apply MeasuredValue_error_setter_rejects. reflexivity.
Qed.

(** C4.  A [Function] built with an error method prints the pair of that
    method in every later state, whatever the global error method then
    is.  A [Function] built without one prints the pair of the error
    method that [config] holds in the state in which it is printed; the
    one that [config] held when it was built plays no part. *)
Theorem Function_prints_chosen_method vals unit name σ0 :
  let l := fresh (dom (heap σ0)) in
  (forall m,
     let o := mkObject Function
                (function_slots (PyDict vals) unit name true (PyErrorMethod m))
                ∅ in
     new_Function (PyDict vals) (Some unit) (Some name)
       (Some (PyErrorMethod m)) σ0
       = (Ok (PyRef l), update_object l o σ0)
     /\ (forall σ pair,
           heap σ !! l = Some o ->
           vals !! ErrorMethod_value m = Some pair ->
           Function_print_value l σ = show_pair pair σ))
  /\ (forall global,
        config σ0 !! ERROR_METHOD = Some global ->
        let o := mkObject Function
                   (function_slots (PyDict vals) unit name false global) ∅ in
        new_Function (PyDict vals) (Some unit) (Some name) None σ0
          = (Ok (PyRef l), update_object l o σ0)
        /\ (forall σ m pair,
              heap σ !! l = Some o ->
              config σ !! ERROR_METHOD = Some (PyErrorMethod m) ->
              vals !! ErrorMethod_value m = Some pair ->
              Function_print_value l σ = show_pair pair σ)).
Proof.
  intros l. split.
  - intros m o. split; [apply new_Function_pinned|].
    intros σ pair Ho Hpair.
    apply (Function_print_value_pinned l o vals (PyErrorMethod m)
             (ErrorMethod_value m) pair σ Ho); try reflexivity.
    exact Hpair.
  - intros global Hg o. split; [apply new_Function_default, Hg|].
    intros σ m pair Ho Hm Hpair.
    apply (Function_print_value_default l o vals (PyErrorMethod m)
             (ErrorMethod_value m) pair σ Ho); try reflexivity;
      assumption.
Qed.

End data_theorems.

(** ** The statements at concrete inputs *)

Section examples.

Example Measurement_of_samples :
  @Measurement reference [PyList [PyInt 1; PyInt 3]] (keywords "m" "length")
    initial_state
  = (Ok (PyRef 1%positive), update_object 1%positive sample_repeated initial_state).
Proof. vm_compute. reflexivity. Qed.

(** The counterexample to C3 as stated.  An empty list is not a non-empty
    array of numbers, and yet the factory prints no error and returns a
    [RepeatedlyMeasuredValue], holding NaN twice, instead of [None].  And
    one integer argument is not always kept as the value: [2^53 + 1] is
    stored as the float [2^53], which differs from it. *)
Lemma Measurement_empty_list_counterexample :
  let made := @Measurement reference [PyList []] (keywords "m" "length")
                initial_state in
  let big := @Measurement reference [PyInt (2 ^ 53 + 1)]
               (keywords "m" "length") initial_state in
  fst made = Ok (PyRef 1%positive)
  /\ stdout (snd made) = []
  /\ ob_type <$> heap (snd made) !! 1%positive = Some RepeatedlyMeasuredValue
  /\ fst (MeasuredValue_value 1%positive (snd made)) = Ok (PyFloat S754_nan)
  /\ fst (MeasuredValue_error 1%positive (snd made)) = Ok (PyFloat S754_nan)
  /\ made <> (Ok PyNone, printed measurement_message initial_state)
  /\ fst (MeasuredValue_value 1%positive (snd big))
     = Ok (PyFloat (float_of_Z (2 ^ 53)))
  /\ eq_float (PyInt (2 ^ 53 + 1)) (float_of_Z (2 ^ 53)) = false.
Proof.
  vm_compute. repeat split. intros Heq. discriminate Heq.
Qed.

(** The reference collaborators compute as numpy documents, with the
    sum taken from left to right. *)
Lemma sum64_is_sum l : is_sum_of l (sum64 l).
Proof.
  unfold sum64.
  enough (Hfold : forall l0 acc,
    is_sum_of l0 acc ->
    is_sum_of (l0 ++ l)%list (fold_left (SFadd prec emax) l acc)).
  { apply (Hfold [] float_zero), sum_zero. }
  induction l as [|x rest IH]; intros l0 acc Hacc; simpl.
  - rewrite app_nil_r. exact Hacc.
  - replace (l0 ++ x :: rest)%list with ((l0 ++ [x]) ++ rest)%list
      by (rewrite <- app_assoc; reflexivity).
    apply IH, sum_add; [exact Hacc|apply sum_one].
Qed.

Lemma floats_of_floats fs : floats_of (map PyFloat fs) = Ok fs.
Proof.
  induction fs as [|f rest IH]; simpl; [reflexivity|].
  rewrite IH. reflexivity.
Qed.

Lemma reference_computes_statistics : @computes_statistics reference sum64.
Proof.
  split; [apply sum64_is_sum|].
  intros a fs Ha _.
  assert (Harr : @np_array reference a = Ok (PyNdarray (map PyFloat fs))).
  { destruct a as [|b|n|f|s|l|l|d|l|m|m|m|r]; simpl in Ha |- *;
      try discriminate;
      destruct (forallb sample l); try discriminate;
      destruct (floats_of l) as [fs'|e]; try discriminate;
      injection Ha as ->; reflexivity. }
  exists (PyNdarray (map PyFloat fs)). split; [exact Harr|]. split.
  - simpl. rewrite floats_of_floats. reflexivity.
  - intros ddof _. simpl. rewrite floats_of_floats. reflexivity.
Qed.

(** The witness of C3: [Measurement(12, unit="m", name="length")] holds
    [(12.0, 0)]; [Measurement(2**1024, ...)] raises [OverflowError]; and
    [Measurement([1, 3], ...)] holds the mean 2.0 and the standard
    deviation 1.0, the square root of [((1-2)^2 + (3-2)^2) / 2]. *)
Lemma Measurement_dispatch_witness :
  @Measurement reference [PyInt 12] (keywords "m" "length") initial_state
  = (Ok (PyRef (fresh (dom (heap initial_state)))),
     update_object (fresh (dom (heap initial_state)))
       (mkObject MeasuredValue
          (measured_slots (PyFloat (float_of_Z 12)) (PyInt 0)
             (PyStr "m") (PyStr "length")) ∅)
       initial_state)
  /\ @Measurement reference [PyInt (2 ^ 1024)] (keywords "m" "length")
       initial_state
     = (Raise OverflowError, initial_state)
  /\ @Measurement reference [PyList [PyInt 1; PyInt 3]]
       (keywords "m" "length") initial_state
     = (Ok (PyRef (fresh (dom (heap initial_state)))),
        update_object (fresh (dom (heap initial_state))) sample_repeated
          initial_state).
Proof.
  destruct (@Measurement_dispatch reference (keywords "m" "length")
              (PyStr "m") (PyStr "length") initial_state eq_refl eq_refl)
    as (Hone & _ & _ & _ & Hsamples & _).
  split; [|split].
  - exact (Hone (PyInt 12) eq_refl).
  - rewrite (Hone (PyInt (2 ^ 1024)) eq_refl). vm_compute. reflexivity.
  - destruct (Hsamples sum64 (PyList [PyInt 1; PyInt 3])
                [float_of_Z 1; float_of_Z 3] reference_computes_statistics
                ltac:(vm_compute; reflexivity) ltac:(discriminate))
      as (arr & Harr & Hmade).
    rewrite Hmade. vm_compute in Harr. injection Harr as <-.
    vm_compute. reflexivity.
Defined.

(** The witness of C5: [m.value = 5] on the sample instance. *)
Lemma setters_fail_on_repeated_measurement_witness :
  let σ := update_object 1%positive sample_repeated initial_state in
  let o' := set_pair sample_repeated
              {[ RECORDED := PyTuple [PyFloat (float_of_Z 2);
                                      PyFloat (float_of_Z 1)] ]}
              (PyTuple [PyInt 5; PyFloat (float_of_Z 1)]) in
  let σ' := printed value_warning (update_object 1%positive o' σ) in
  MeasuredValue_value_setter 1%positive (PyInt 5) σ = (Raise TypeError, σ')
  /\ ob_type o' = RepeatedlyMeasuredValue
  /\ raw_data 1%positive σ'
     = (Ok (PyNdarray [PyFloat (float_of_Z 1); PyFloat (float_of_Z 3)]), σ').
Proof.
  cbv zeta.
  destruct (setters_fail_on_repeated_measurement 1%positive sample_repeated
              {[ RECORDED := PyTuple [PyFloat (float_of_Z 2);
                                      PyFloat (float_of_Z 1)] ]}
              (PyFloat (float_of_Z 2)) (PyFloat (float_of_Z 1))
              (PyNdarray [PyFloat (float_of_Z 1); PyFloat (float_of_Z 3)])
              (PyInt 5)
              (update_object 1%positive sample_repeated initial_state)
              eq_refl eq_refl eq_refl eq_refl eq_refl) as [Hvalue _].
  exact (Hvalue eq_refl).
Defined.

(** The witness of C9: the sample instance with an infinite value. *)
Lemma infinite_value_prints_inf_witness :
  let σ := update_object 1%positive sample_infinite initial_state in
  @MeasuredValue_print_value reference 1%positive σ = (Ok "inf", σ).
Proof.
  cbv zeta.
  destruct (@infinite_value_prints_inf reference 1%positive sample_infinite
              {[ RECORDED := PyTuple [PyFloat float_inf; PyInt 0] ]}
              (update_object 1%positive sample_infinite initial_state)
              eq_refl eq_refl) as [Hmeasured _].
  exact (Hmeasured [PyInt 0] eq_refl).
Defined.

(** The witness of C10: [m.error = 0] is refused, and
    [Measurement(12, unit="m", name="length")] has the uncertainty 0. *)
Lemma error_setter_witness :
  MeasuredValue_error_setter 1%positive (PyInt 0) initial_state
    = (Ok tt, printed error_error_message initial_state)
  /\ exists l σ',
       @Measurement reference [PyInt 12] (keywords "m" "length") initial_state
         = (Ok (PyRef l), σ')
       /\ MeasuredValue_error l σ' = (Ok (PyInt 0), σ')
       /\ MeasuredValue_error_setter l (PyInt 0) σ'
          = (Ok tt, printed error_error_message σ').
Proof.
  destruct (@error_setter_accepts_positive_numbers_only reference)
    as (Hrefuse & _ & Hzero).
  split.
  - exact (proj1 (Hrefuse 1%positive (PyInt 0) initial_state eq_refl)).
  - exact (Hzero (PyInt 12) (PyFloat (float_of_Z 12)) (keywords "m" "length")
             (PyStr "m") (PyStr "length") initial_state
             eq_refl eq_refl eq_refl eq_refl).
Defined.

(** The witness of C4: a [Function] built without an error method while
    the global one is [DERIVATIVE], printed after
    [set_error_method(ErrorMethod.MIN_MAX)], shows the pair of [MIN_MAX]. *)
Lemma Function_prints_chosen_method_witness :
  let l := fresh (dom (heap initial_state)) in
  let o := mkObject Function
             (function_slots (PyDict sample_results) empty_str empty_str
                false (PyErrorMethod DERIVATIVE)) ∅ in
  let σ := snd (set_error_method (PyErrorMethod MIN_MAX)
                  (update_object l o initial_state)) in
  @Function_print_value reference l σ
  = @show_pair reference
      (PyTuple [PyFloat (float_of_Z 5); PyFloat (float_of_Z 2)]) σ.
Proof.
  cbv zeta.
  destruct (@Function_prints_chosen_method reference sample_results
              empty_str empty_str initial_state) as [_ Hdefault].
  destruct (Hdefault (PyErrorMethod DERIVATIVE) eq_refl) as [_ Hprint].
  apply (Hprint _ MIN_MAX); vm_compute; reflexivity.
Defined.

End examples.

(** * Further properties of the code *)

(** ** The configuration store *)

Section settings_extras.

(** X1.  [set_error_method] followed by [get_error_method]: a member of
    [ErrorMethod] is stored and read back, and nothing else changes; any
    other argument is refused with the message, the state as before. *)
Theorem set_error_method_get_error_method σ :
  (forall m : ErrorMethod,
     let σ' := snd (set_error_method (PyErrorMethod m) σ) in
     fst (set_error_method (PyErrorMethod m) σ) = Ok tt
     /\ get_error_method σ' = (Ok (PyErrorMethod m), σ')
     /\ get_print_style σ' = (fst (get_print_style σ), σ')
     /\ get_sig_fig_mode σ' = (fst (get_sig_fig_mode σ), σ')
     /\ get_sig_fig_value σ' = (fst (get_sig_fig_value σ), σ')
     /\ stdout σ' = stdout σ /\ heap σ' = heap σ)
  /\ (forall v,
        (forall m, v <> PyErrorMethod m) ->
        set_error_method v σ = (Ok tt, printed error_method_message σ)).
Proof.
  split.
  - intros m. cbv zeta.
    change (set_error_method (PyErrorMethod m) σ)
      with (Ok tt, mkState (<[ERROR_METHOD := PyErrorMethod m]> (config σ))
                           (stdout σ) (heap σ)).
    cbn [fst snd].
    unfold get_error_method, get_print_style, get_sig_fig_mode,
      get_sig_fig_value, mbind, M_bind, config_getitem. cbn [config stdout heap].
    rewrite lookup_insert_eq.
    rewrite (lookup_insert_ne _ ERROR_METHOD PRINT_STYLE) by discriminate.
    rewrite (lookup_insert_ne _ ERROR_METHOD SIG_FIGS) by discriminate.
    repeat split;
      destruct (config σ !! SIG_FIGS) as [inner|]; reflexivity.
  - intros v Hv. unfold set_error_method, mbind, M_bind, isinstance, has_type.
    destruct v; try reflexivity.
    + exfalso. eapply Hv. reflexivity.
    + simpl. destruct (heap σ !! l); reflexivity.
Qed.

(** The body shared by the two setters of the significant figures. *)
Lemma sig_figs_body_frame n mode σ :
  let σ' := snd ((config_setitem2 SIG_FIGS SIG_FIG_VALUE (PyInt n);;
                  config_setitem2 SIG_FIGS SIG_FIG_MODE (PySigFigMode mode)) σ) in
  method_and_style σ' = method_and_style σ
  /\ heap σ' = heap σ /\ stdout σ' = stdout σ.
Proof.
  cbv zeta. unfold mbind, M_bind, config_setitem2, config_getitem, mbind,
    M_bind, raise, config_setitem, method_and_style.
  destruct (config σ !! SIG_FIGS) as [inner|]; cbn [from_option];
    [|repeat split].
  destruct inner; try solve [repeat split]. cbn [config stdout heap].
  rewrite lookup_insert_eq. cbn [from_option snd config stdout heap].
  rewrite !(lookup_insert_ne _ SIG_FIGS ERROR_METHOD) by discriminate.
  rewrite !(lookup_insert_ne _ SIG_FIGS PRINT_STYLE) by discriminate.
  repeat split.
Qed.

Lemma sig_figs_setter_frame v mode message σ :
  let σ' :=
    snd (try_except
           (sig_figs ← lift (py_int v);
            (if sig_figs <=? 0 then raise ValueError else mret tt);;
            config_setitem2 SIG_FIGS SIG_FIG_VALUE (PyInt sig_figs);;
            config_setitem2 SIG_FIGS SIG_FIG_MODE (PySigFigMode mode))
           ValueError_or_TypeError (print message) σ) in
  method_and_style σ' = method_and_style σ /\ heap σ' = heap σ.
Proof.
  cbv zeta. unfold try_except.
  destruct (py_int v) as [n|e] eqn:Hint.
  - erewrite bind_run by reflexivity.
    destruct (n <=? 0).
    + erewrite bind_raise by reflexivity. split; reflexivity.
    + erewrite bind_run by reflexivity.
      destruct (sig_figs_body_frame n mode σ) as (Hc & Hh & _).
      destruct ((config_setitem2 SIG_FIGS SIG_FIG_VALUE (PyInt n);;
                 config_setitem2 SIG_FIGS SIG_FIG_MODE (PySigFigMode mode)) σ)
        as [[u|e] σ']; cbn [snd] in *.
      * split; assumption.
      * destruct (ValueError_or_TypeError e); split; assumption.
  - erewrite bind_raise by reflexivity.
    destruct (ValueError_or_TypeError e); split; reflexivity.
Qed.

(** X2.  Whatever the argument and whatever the state, the two setters of the
    significant figures leave the error method, the print style and the
    instances alone. *)
Theorem sig_figs_setters_frame v σ :
  (method_and_style (snd (set_sig_figs_for_value v σ)) = method_and_style σ
   /\ heap (snd (set_sig_figs_for_value v σ)) = heap σ)
  /\ (method_and_style (snd (set_sig_figs_for_error v σ)) = method_and_style σ
      /\ heap (snd (set_sig_figs_for_error v σ)) = heap σ).
Proof.
  split.
  - exact (sig_figs_setter_frame v VALUE sig_figs_value_message σ).
  - exact (sig_figs_setter_frame v ERROR sig_figs_error_message σ).
Qed.

(** X3.  A float argument goes through [int()]: a finite float is truncated
    towards zero and its integer part is stored when positive; an
    infinite float raises [OverflowError], which the [except] clause does
    not catch, and the state is as before. *)
Theorem sig_figs_setters_on_floats σ d :
  config σ !! SIG_FIGS = Some (PyDict d) ->
  (forall f n,
     Z_of_float f = Some n -> 0 < n ->
     set_sig_figs_for_value (PyFloat f) σ = (Ok tt, with_sig_figs n VALUE d σ)
     /\ set_sig_figs_for_error (PyFloat f) σ
        = (Ok tt, with_sig_figs n ERROR d σ))
  /\ (forall s,
        set_sig_figs_for_value (PyFloat (S754_infinity s)) σ
          = (Raise OverflowError, σ)
        /\ set_sig_figs_for_error (PyFloat (S754_infinity s)) σ
           = (Raise OverflowError, σ)).
Proof.
  intros Hd. split.
  - intros f n Hf Hn.
    rewrite (set_sig_figs_for_value_run _ d σ Hd),
      (set_sig_figs_for_error_run _ d σ Hd).
    assert (Hint : py_int (PyFloat f) = Ok n).
    { destruct f; simpl in Hf |- *; try discriminate;
        injection Hf as <-; reflexivity. }
    rewrite Hint. destruct (Z.leb_spec n 0); [lia|]. split; reflexivity.
  - intros s. apply (set_sig_figs_infinite σ d s Hd).
Qed.

(** X4.  A second [reset_default_configuration] changes nothing, and the
    function never prints nor touches an instance. *)
Theorem reset_default_configuration_idempotent σ :
  has_sig_figs σ ->
  let σ' := snd (reset_default_configuration σ) in
  reset_default_configuration σ = (Ok tt, σ')
  /\ reset_default_configuration σ' = (Ok tt, σ')
  /\ stdout σ' = stdout σ /\ heap σ' = heap σ.
Proof.
  intros [d Hd]. cbv zeta.
  rewrite (reset_default_configuration_run d σ Hd). cbn [snd].
  split; [reflexivity|]. split; [|split; reflexivity].
  erewrite reset_default_configuration_run
    by (cbn [config]; apply lookup_insert_eq).
  cbn [config stdout heap]. do 2 f_equal.
  apply map_eq. intros k.
  destruct (decide (k = SIG_FIGS)) as [->|Hk1].
  { rewrite !lookup_insert_eq. do 2 f_equal.
    apply map_eq. intros j.
    destruct (decide (j = SIG_FIG_VALUE)) as [->|Hj1];
      [rewrite !lookup_insert_eq; reflexivity|].
    destruct (decide (j = SIG_FIG_MODE)) as [->|Hj2];
      repeat first [rewrite lookup_insert_eq
                   |rewrite lookup_insert_ne by congruence];
      reflexivity. }
  destruct (decide (k = PRINT_STYLE)) as [->|Hk2];
    [|destruct (decide (k = ERROR_METHOD)) as [->|Hk3]];
    repeat first [rewrite lookup_insert_eq
                 |rewrite lookup_insert_ne by congruence];
    reflexivity.
Qed.

(** X5.  The two setters of the significant figures write the same number:
    the later call decides both the number and the mode. *)
Theorem sig_figs_setters_last_call_wins σ d v w n m :
  config σ !! SIG_FIGS = Some (PyDict d) ->
  as_integer v = Some n -> 0 < n ->
  as_integer w = Some m -> 0 < m ->
  sig_figs_are m ERROR
    (snd (set_sig_figs_for_error w (snd (set_sig_figs_for_value v σ))))
  /\ sig_figs_are n VALUE
       (snd (set_sig_figs_for_value v (snd (set_sig_figs_for_error w σ)))).
Proof.
  intros Hd Hv Hn Hw Hm.
  rewrite (set_sig_figs_for_value_run v d σ Hd),
    (set_sig_figs_for_error_run w d σ Hd),
    (py_int_as_integer v n Hv), (py_int_as_integer w m Hw).
  destruct (Z.leb_spec n 0); [lia|]. destruct (Z.leb_spec m 0); [lia|].
  cbn [snd]. split.
  - erewrite set_sig_figs_for_error_run
      by (cbn [with_sig_figs config]; apply lookup_insert_eq).
    rewrite (py_int_as_integer w m Hw).
    destruct (Z.leb_spec m 0); [lia|]. apply sig_figs_are_with_sig_figs.
  - erewrite set_sig_figs_for_value_run
      by (cbn [with_sig_figs config]; apply lookup_insert_eq).
    rewrite (py_int_as_integer v n Hv).
    destruct (Z.leb_spec n 0); [lia|]. apply sig_figs_are_with_sig_figs.
Qed.

End settings_extras.

(** ** Invariants *)

Section keeps_facts.

Lemma keeps_ret {A} (I : state -> Prop) (a : A) : keeps I (mret a).
Proof. intros σ Hσ. exact Hσ. Qed.

Lemma keeps_raise {A} (I : state -> Prop) e : keeps I (@raise A e).
Proof. intros σ Hσ. exact Hσ. Qed.

Lemma keeps_lift {A} (I : state -> Prop) (r : result A) : keeps I (lift r).
Proof. intros σ Hσ. exact Hσ. Qed.

Lemma keeps_isinstance (I : state -> Prop) v types :
  keeps I (isinstance v types).
Proof. intros σ Hσ. exact Hσ. Qed.

Lemma keeps_read_object {A} (I : state -> Prop) l (f : object -> result A) :
  keeps I (read_object l f).
Proof.
  intros σ Hσ. unfold read_object. destruct (heap σ !! l); exact Hσ.
Qed.

Lemma keeps_hasattr (I : state -> Prop) l attr : keeps I (hasattr l attr).
Proof.
  intros σ Hσ. unfold hasattr, getattr, read_object.
  destruct (heap σ !! l) as [o|]; [|exact Hσ].
  destruct (object_getattr o attr) as [v|[]]; exact Hσ.
Qed.

Lemma keeps_print (I : state -> Prop) s :
  (forall σ, I σ -> I (printed s σ)) -> keeps I (print s).
Proof. intros Hp σ Hσ. apply Hp, Hσ. Qed.

Lemma keeps_write_object (I : state -> Prop) l (f : object -> result object) :
  (forall σ o o', I σ -> heap σ !! l = Some o -> f o = Ok o' ->
                  I (update_object l o' σ)) ->
  keeps I (write_object l f).
Proof.
  intros Hw σ Hσ. unfold write_object.
  destruct (heap σ !! l) as [o|] eqn:Ho; [|exact Hσ].
  destruct (f o) as [o'|e] eqn:Hf; [|exact Hσ].
  apply (Hw σ o o' Hσ Ho Hf).
Qed.

(** Sequencing, the first computation telling [Q] about what it returns. *)
Lemma keeps_bind_post {A B} (I : state -> Prop) (Q : A -> Prop)
    (m : M A) (f : A -> M B) :
  (forall σ, I σ -> I (snd (m σ)) /\ forall a, fst (m σ) = Ok a -> Q a) ->
  (forall a, Q a -> keeps I (f a)) ->
  keeps I (m ≫= f).
Proof.
  intros Hm Hf σ Hσ. unfold mbind, M_bind.
  destruct (Hm σ Hσ) as [HI HQ].
  destruct (m σ) as [[a|e] σ']; cbn [fst snd] in *.
  - apply (Hf a (HQ a eq_refl) σ' HI).
  - exact HI.
Qed.

Lemma keeps_bind {A B} (I : state -> Prop) (m : M A) (f : A -> M B) :
  keeps I m -> (forall a, keeps I (f a)) -> keeps I (m ≫= f).
Proof.
  intros Hm Hf. apply (keeps_bind_post I (fun _ => True)).
  - intros σ Hσ. split; [apply Hm, Hσ|trivial].
  - intros a _. apply Hf.
Qed.

End keeps_facts.

(** Takes a computation apart along its binds, tests and matches;
    [leaf] closes the steps that depend on the invariant. *)
Ltac keeps_steps_with leaf :=
  repeat first
    [ leaf
    | match goal with
      | |- keeps _ (mbind _ _) => apply keeps_bind; [|intros ?]
      | |- keeps _ (mret _) => apply keeps_ret
      | |- keeps _ (raise _) => apply keeps_raise
      | |- keeps _ (lift _) => apply keeps_lift
      | |- keeps _ (isinstance _ _) => apply keeps_isinstance
      | |- keeps _ (read_object _ _) => apply keeps_read_object
      | |- keeps _ (hasattr _ _) => apply keeps_hasattr
      | |- keeps _ (if ?b then _ else _) => destruct b
      | |- keeps _ (match ?v with _ => _ end) => destruct v
      end ].

Ltac keeps_steps := keeps_steps_with fail.

Section raw_data_facts.
Context `{Collaborators}.

Lemma holds_raw_data_printed l arr s σ :
  holds_raw_data l arr σ -> holds_raw_data l arr (printed s σ).
Proof. intros Hσ. exact Hσ. Qed.

Lemma keeps_raw_data_setitem l arr key v :
  keeps (holds_raw_data l arr) (setitem_attr l "_values" key v).
Proof.
  unfold setitem_attr, getattr, setattr. keeps_steps.
  apply keeps_write_object. intros σ o o' (o0 & Ho0 & Hty & Hraw) Ho Hset.
  rewrite Ho0 in Ho. injection Ho as ->.
  unfold object_setattr in Hset. rewrite has_slot_values in Hset.
  injection Hset as <-. exists (mkObject (ob_type o)
    (<["_values" := PyDict (<[key := v]> d)]> (ob_slots o)) (ob_dict o)).
  split; [apply heap_update_object|]. split; [exact Hty|].
  cbn [ob_slots]. rewrite lookup_insert_ne by discriminate. exact Hraw.
Qed.

Lemma keeps_raw_data_set_class l arr :
  keeps (holds_raw_data l arr) (set_class l MeasuredValue).
Proof.
  unfold set_class. apply keeps_write_object.
  intros σ o o' (o0 & Ho0 & Hty & Hraw) Ho Hset.
  rewrite Ho0 in Ho. injection Ho as ->.
  unfold object_set_class in Hset. rewrite Hty in Hset. discriminate Hset.
Qed.

Lemma keeps_raw_data_demote l arr warning :
  keeps (holds_raw_data l arr) (demote warning l).
Proof.
  unfold demote. keeps_steps.
  - apply keeps_print. intros. assumption.
  - apply keeps_raw_data_set_class.
Qed.

Ltac raw_data_steps :=
  keeps_steps_with
    ltac:(first [ apply keeps_raw_data_setitem
                | apply keeps_raw_data_set_class
                | apply keeps_print; intros; assumption ]).

Lemma raw_data_run l arr σ :
  holds_raw_data l arr σ -> raw_data l σ = (Ok arr, σ).
Proof.
  intros (o & Ho & Hty & Hraw). unfold raw_data.
  rewrite (read_object_run l _ o σ Ho). unfold object_getattr.
  rewrite Hty, has_slot_raw_data, Hraw. reflexivity.
Qed.

(** X11.  Whatever is assigned to [value], [error] or [relative_error] of a
    [RepeatedlyMeasuredValue] that holds its raw data, and whether the
    setter returns or raises, the instance is a [RepeatedlyMeasuredValue]
    afterwards and [raw_data] answers with the same samples: no setter
    ever removes them. *)
Theorem setters_never_discard_raw_data l arr v σ :
  holds_raw_data l arr σ ->
  (holds_raw_data l arr (snd (MeasuredValue_value_setter l v σ))
   /\ raw_data l (snd (MeasuredValue_value_setter l v σ))
      = (Ok arr, snd (MeasuredValue_value_setter l v σ)))
  /\ (holds_raw_data l arr (snd (MeasuredValue_error_setter l v σ))
      /\ raw_data l (snd (MeasuredValue_error_setter l v σ))
         = (Ok arr, snd (MeasuredValue_error_setter l v σ)))
  /\ (holds_raw_data l arr (snd (MeasuredValue_relative_error_setter l v σ))
      /\ raw_data l (snd (MeasuredValue_relative_error_setter l v σ))
         = (Ok arr, snd (MeasuredValue_relative_error_setter l v σ))).
Proof.
  intros Hσ.
  assert (Hvalue : keeps (holds_raw_data l arr) (MeasuredValue_value_setter l v)).
  { unfold MeasuredValue_value_setter, getattr. raw_data_steps. }
  assert (Herror : keeps (holds_raw_data l arr) (MeasuredValue_error_setter l v)).
  { unfold MeasuredValue_error_setter, positive_number, getattr.
    raw_data_steps. }
  assert (Hrel : keeps (holds_raw_data l arr)
                   (MeasuredValue_relative_error_setter l v)).
  { unfold MeasuredValue_relative_error_setter, positive_number, getattr.
    raw_data_steps. }
  repeat split;
    first [apply Hvalue, Hσ | apply Herror, Hσ | apply Hrel, Hσ
          | apply raw_data_run; first [apply Hvalue, Hσ | apply Herror, Hσ
                                      | apply Hrel, Hσ]].
Qed.

End raw_data_facts.

(** ** The factory and the instances it builds *)

Section factory_extras.
Context `{Collaborators}.

Lemma extends_refl σ : extends σ σ.
Proof. split; [reflexivity|auto]. Qed.

Lemma fresh_not_allocated σ0 σ :
  extends σ0 σ -> heap σ0 !! fresh (dom (heap σ)) = None.
Proof.
  intros [_ Hh]. destruct (heap σ0 !! fresh (dom (heap σ))) as [o|] eqn:Ho;
    [|reflexivity].
  apply Hh in Ho. exfalso.
  apply (is_fresh (dom (heap σ))). apply elem_of_dom. eexists. exact Ho.
Qed.

Lemma extends_update_object σ0 σ l o :
  heap σ0 !! l = None -> extends σ0 σ -> extends σ0 (update_object l o σ).
Proof.
  intros Hl [Hc Hh]. split; [exact Hc|].
  intros l' o' Ho'. cbn [update_object heap].
  rewrite lookup_insert_ne by congruence. apply Hh, Ho'.
Qed.

Lemma keeps_extends_write σ0 l f :
  heap σ0 !! l = None -> keeps (extends σ0) (write_object l f).
Proof.
  intros Hl. apply keeps_write_object. intros σ o o' Hσ _ _.
  apply extends_update_object; assumption.
Qed.

Ltac extends_steps Hl :=
  keeps_steps_with
    ltac:(first [ match goal with
                  | |- keeps _ (write_object _ _) =>
                      apply (keeps_extends_write _ _ _ Hl)
                  end
                | apply keeps_print; intros ? [? ?]; split; assumption ]).

Lemma keeps_extends_MeasuredValue__init__ σ0 l value error unit name :
  heap σ0 !! l = None ->
  keeps (extends σ0) (MeasuredValue__init__ l value error unit name).
Proof.
  intros Hl.
  unfold MeasuredValue__init__, ExperimentalValue__init__, setitem_attr,
    setattr, getattr.
  extends_steps Hl.
Qed.

Lemma keeps_extends_alloc {B} σ0 cls (f : loc -> M B) :
  (forall l, heap σ0 !! l = None -> keeps (extends σ0) (f l)) ->
  keeps (extends σ0) (alloc cls ≫= f).
Proof.
  intros Hf. apply (keeps_bind_post _ (fun l => heap σ0 !! l = None)).
  - intros σ Hσ. unfold alloc. cbn [fst snd]. split.
    + apply extends_update_object; [apply fresh_not_allocated|]; exact Hσ.
    + intros l [= <-]. apply fresh_not_allocated, Hσ.
  - exact Hf.
Qed.

(** X12.  [Measurement], whatever its arguments and whether it returns or
    raises, leaves [config] and every instance that existed before the
    call as they were. *)
Theorem Measurement_touches_nothing_else args kwargs σ :
  extends σ (snd (Measurement args kwargs σ)).
Proof.
  assert (Hk : keeps (extends σ) (Measurement args kwargs)).
  { unfold Measurement, new_MeasuredValue, new_RepeatedlyMeasuredValue.
    keeps_steps_with
      ltac:(first
        [ match goal with
          | |- keeps _ (mbind _ (alloc _)) =>
              apply keeps_extends_alloc; intros self Hself;
              apply keeps_bind; [|intros ?; apply keeps_ret]
          end
        | apply keeps_print; intros ? [? ?]; split; assumption ]).
    - unfold RepeatedlyMeasuredValue__init__, setitem_attr, setattr, getattr.
      apply keeps_bind;
        [apply keeps_extends_MeasuredValue__init__, Hself|intros ?].
      extends_steps Hself.
    - apply keeps_extends_MeasuredValue__init__, Hself.
    - apply keeps_extends_MeasuredValue__init__, Hself. }
  apply Hk, extends_refl.
Qed.

(** X13.  An integer too large for a float stops the factory with the
    [OverflowError] of [float()], before the keywords are read and before
    any instance exists. *)
Theorem Measurement_overflow n y kwargs s σ :
  float_of_Z n = S754_infinity s ->
  Measurement [PyInt n] kwargs σ = (Raise OverflowError, σ)
  /\ (is_number y = true ->
      Measurement [PyInt n; y] kwargs σ = (Raise OverflowError, σ)).
Proof.
  intros Hn. rewrite !Measurement_tests. cbn [length nth Nat.eqb is_array
    is_number andb].
  assert (Hf : py_float (PyInt n) = Raise OverflowError).
  { unfold py_float. rewrite Hn. reflexivity. }
  split.
  - apply bind_raise. unfold lift. rewrite Hf. reflexivity.
  - intros ->. cbn [andb]. apply bind_raise. unfold lift. rewrite Hf.
    reflexivity.
Qed.

(** X14.  What the factory stores is what the getters read: after
    [Measurement(x, y, unit=..., name=...)] with two numbers, [value] is
    [float(x)], [error] is [float(y)], and the properties [unit] and
    [name] are the keywords; and assigning to [unit] changes nothing. *)
Theorem Measurement_then_getters x y v e kwargs unit name w σ :
  kwargs !! "unit" = Some unit -> kwargs !! "name" = Some name ->
  is_number x = true -> is_number y = true ->
  py_float x = Ok v -> py_float y = Ok e ->
  exists l σ',
    Measurement [x; y] kwargs σ = (Ok (PyRef l), σ')
    /\ MeasuredValue_value l σ' = (Ok v, σ')
    /\ MeasuredValue_error l σ' = (Ok e, σ')
    /\ ExperimentalValue_unit l σ' = (Ok unit, σ')
    /\ ExperimentalValue_name l σ' = (Ok name, σ')
    /\ ExperimentalValue_unit_setter l w σ' = (Ok tt, σ').
Proof.
  intros Hu Hn Hx Hy Hv He. eexists _, _. split; [|repeat split].
  - rewrite (Measurement_two_numbers x y v e kwargs unit name σ
               Hu Hn Hx Hy Hv He).
    apply new_MeasuredValue_run.
  - eapply MeasuredValue_value_run;
      [apply heap_update_object|reflexivity|reflexivity].
  - eapply MeasuredValue_error_run;
      [apply heap_update_object|reflexivity|reflexivity].
  - eapply getattr_run; [apply heap_update_object|reflexivity].
  - eapply getattr_run; [apply heap_update_object|reflexivity].
  - unfold ExperimentalValue_unit_setter, mbind, M_bind, isinstance.
    destruct (has_type _ w [t_str]); reflexivity.
Qed.

(** X15.  [raw_data] after the factory: the instance built from a list or an
    array answers with the numpy array made from the argument; an
    instance built from numbers has no [raw_data]. *)
Theorem raw_data_after_Measurement kwargs unit name σ :
  kwargs !! "unit" = Some unit -> kwargs !! "name" = Some name ->
  (forall a arr mean std,
     is_array a = true -> np_array a = Ok arr ->
     ndarray_mean arr = Ok mean -> ndarray_std arr 0 = Ok std ->
     exists l σ',
       Measurement [a] kwargs σ = (Ok (PyRef l), σ')
       /\ raw_data l σ' = (Ok arr, σ'))
  /\ (forall x v,
        is_number x = true -> py_float x = Ok v ->
        exists l σ',
          Measurement [x] kwargs σ = (Ok (PyRef l), σ')
          /\ raw_data l σ' = (Raise (AttributeError "raw_data"), σ')).
Proof.
  intros Hu Hn. split.
  - intros a arr mean std Ha Harr Hmean Hstd. eexists _, _. split.
    + rewrite (Measurement_one_array a kwargs unit name σ Hu Hn Ha).
      apply (new_RepeatedlyMeasuredValue_run a _ _ arr mean std σ
               Harr Hmean Hstd).
    + apply raw_data_run. eexists. split; [apply heap_update_object|].
      split; [reflexivity|]. cbn [ob_slots]. apply lookup_insert_eq.
  - intros x v Hx Hv. eexists _, _. split.
    + rewrite (Measurement_one_number x v kwargs unit name σ Hu Hn Hx Hv).
      apply new_MeasuredValue_run.
    + unfold raw_data. erewrite read_object_run by apply heap_update_object.
      reflexivity.
Qed.

End factory_extras.

(** ** Properties, setters and printing of an instance *)

Section instance_extras.
Context `{Collaborators}.

(** X7.  The property [name]: a string is stored and read back; anything else
    is ignored without a message, the state as before. *)
Theorem name_setter_then_getter l o σ :
  heap σ !! l = Some o ->
  (forall s,
     let o' := mkObject (ob_type o) (<["_name" := PyStr s]> (ob_slots o))
                 (ob_dict o) in
     let σ' := update_object l o' σ in
     ExperimentalValue_name_setter l (PyStr s) σ = (Ok tt, σ')
     /\ ExperimentalValue_name l σ' = (Ok (PyStr s), σ'))
  /\ (forall v,
        (forall s, v <> PyStr s) ->
        ExperimentalValue_name_setter l v σ = (Ok tt, σ)).
Proof.
  intros Ho. split.
  - intros s. cbv zeta. split.
    + unfold ExperimentalValue_name_setter.
      erewrite bind_run by reflexivity.
      change (has_type (heap σ) (PyStr s) [t_str]) with true. cbv iota.
      eapply setattr_run; [exact Ho|].
      unfold object_setattr. rewrite has_slot_name. reflexivity.
    + eapply getattr_run; [apply heap_update_object|].
      unfold object_getattr. cbn [ob_type ob_slots].
      rewrite has_slot_name, lookup_insert_eq. reflexivity.
  - intros v Hv. unfold ExperimentalValue_name_setter.
    erewrite bind_run by reflexivity.
    destruct v; try reflexivity.
    + exfalso. eapply Hv. reflexivity.
    + unfold has_type; simpl. destruct (heap σ !! l0); reflexivity.
Qed.

(** X8.  The property [value] of a plain [MeasuredValue]: a number is stored
    and read back, the uncertainty staying what it was; anything else is
    refused with the message, the state as before. *)
Theorem value_setter_then_getters l o vals x e σ :
  heap σ !! l = Some o ->
  ob_type o = MeasuredValue ->
  ob_dict o !! "_raw_data" = None ->
  ob_slots o !! "_values" = Some (PyDict vals) ->
  vals !! RECORDED = Some (PyTuple [x; e]) ->
  (forall v,
     is_number v = true ->
     let σ' := update_object l (set_pair o vals (PyTuple [v; e])) σ in
     MeasuredValue_value_setter l v σ = (Ok tt, σ')
     /\ MeasuredValue_value l σ' = (Ok v, σ')
     /\ MeasuredValue_error l σ' = (Ok e, σ'))
  /\ (forall v,
        is_number v = false ->
        MeasuredValue_value_setter l v σ
        = (Ok tt, printed value_error_message σ)).
Proof.
  intros Ho Hty Hraw Hvals Hpair. split.
  - intros v Hv. cbv zeta. split; [|split].
    + rewrite (MeasuredValue_value_setter_run l o vals x e v σ
                 Ho Hvals Hpair Hv).
      apply (demote_plain _ l (set_pair o vals (PyTuple [v; e])));
        [apply heap_update_object|exact Hty|exact Hraw].
    + eapply MeasuredValue_value_run; [apply heap_update_object| |];
        cbn [set_pair ob_slots]; apply lookup_insert_eq.
    + eapply MeasuredValue_error_run; [apply heap_update_object| |];
        cbn [set_pair ob_slots]; apply lookup_insert_eq.
  - intros v Hv. unfold MeasuredValue_value_setter.
    erewrite bind_run by apply isinstance_NUMBER_TYPES. rewrite Hv.
    reflexivity.
Qed.

(** X9.  The property [relative_error] of a plain [MeasuredValue] that
    holds the value [x].  For a strictly positive number [r] the new
    uncertainty is [x * float(r)].  When that product exists it is stored,
    with the sign of the value, the value is kept, and the getters answer
    with both.  When [float(r)] or the product raises, [OverflowError]
    for an [int] beyond the range of binary64 and [TypeError] for a value
    that is not a number, the exception leaves the setter: nothing is
    stored and nothing is printed.  Anything else than a strictly
    positive number is refused with the message, the state as before. *)
Theorem relative_error_setter_stores_product l o vals x e σ :
  heap σ !! l = Some o ->
  ob_type o = MeasuredValue ->
  ob_dict o !! "_raw_data" = None ->
  ob_slots o !! "_values" = Some (PyDict vals) ->
  vals !! RECORDED = Some (PyTuple [x; e]) ->
  (forall r,
     strictly_positive r = true ->
     MeasuredValue_relative_error_setter l r σ =
       match scaled x r with
       | Ok product =>
           (Ok tt, update_object l (set_pair o vals (PyTuple [x; product])) σ)
       | Raise err => (Raise err, σ)
       end)
  /\ (forall product,
        let σ' := update_object l (set_pair o vals (PyTuple [x; product])) σ in
        MeasuredValue_value l σ' = (Ok x, σ')
        /\ MeasuredValue_error l σ' = (Ok product, σ'))
  /\ (forall g f,
        scaled (PyFloat g) (PyFloat f) = Ok (PyFloat (SFmul prec emax g f)))
  /\ (forall r,
        strictly_positive r = false ->
        MeasuredValue_relative_error_setter l r σ
        = (Ok tt, printed relative_error_message σ)).
Proof.
  intros Ho Hty Hraw Hvals Hpair.
  assert (Hread : getattr l "_values" σ = (Ok (PyDict vals), σ)).
  { apply (getattr_run l _ o _ σ Ho).
    unfold object_getattr. rewrite has_slot_values, Hvals. reflexivity. }
  split; [|split; [|split]].
  - intros r Hr. unfold MeasuredValue_relative_error_setter, scaled.
    erewrite bind_run by exact Hread.
    erewrite bind_run by (unfold lift; simpl; rewrite Hpair; reflexivity).
    erewrite bind_run by apply positive_number_run. rewrite Hr.
    erewrite bind_run by reflexivity.
    destruct (py_float r) as [fr|err] eqn:Hf; [|apply bind_raise; reflexivity].
    erewrite bind_run by reflexivity.
    destruct fr as [| | |f| | | | | | | | |];
      try (apply bind_raise; reflexivity).
    destruct (py_mul_float x f) as [product|err] eqn:Hp;
      [|apply bind_raise; reflexivity].
    erewrite bind_run by reflexivity.
    erewrite bind_run by reflexivity.
    erewrite bind_run; cycle 1.
    { apply (setitem_attr_run l _ _ _ o vals σ Ho (has_slot_values _) Hvals). }
    apply (demote_plain _ l (set_pair o vals (PyTuple [x; product])));
      [apply heap_update_object|exact Hty|exact Hraw].
  - intros product. cbv zeta. split.
    + eapply MeasuredValue_value_run; [apply heap_update_object| |];
        cbn [set_pair ob_slots]; apply lookup_insert_eq.
    + eapply MeasuredValue_error_run; [apply heap_update_object| |];
        cbn [set_pair ob_slots]; apply lookup_insert_eq.
  - intros g f. reflexivity.
  - intros r Hr. unfold MeasuredValue_relative_error_setter.
    erewrite bind_run by exact Hread.
    erewrite bind_run by (unfold lift; simpl; rewrite Hpair; reflexivity).
    erewrite bind_run by apply positive_number_run. rewrite Hr. reflexivity.
Qed.

Lemma isinstance_Constant l o σ :
  heap σ !! l = Some o ->
  isinstance (PyRef l) [t_class Constant] σ
  = (Ok (bool_decide (ob_type o = Constant)), σ).
Proof.
  intros Ho. unfold isinstance, has_type, type_of. rewrite Ho.
  destruct o as [c slots dict]. destruct c; reflexivity.
Qed.

(** X10.  [str()] of an instance.  A [Constant] gives the empty string.  A
    [MeasuredValue], a [RepeatedlyMeasuredValue] or a [Function] whose
    name is a string gives the text of [_print_value], preceded by the
    name and " = " when the name is not empty; the unit is never shown.
    An instance of [ExperimentalValue] itself raises [TypeError], its
    [_print_value] returning [None]. *)
Theorem str_of_instance l o σ :
  heap σ !! l = Some o ->
  (ob_type o = Constant -> ExperimentalValue__str__ l σ = (Ok EmptyString, σ))
  /\ (forall name shown σ',
        ob_slots o !! "_name" = Some (PyStr name) ->
        (issubclass (ob_type o) MeasuredValue = true
         /\ MeasuredValue_print_value l σ = (Ok shown, σ'))
        \/ (ob_type o = Function
            /\ Function_print_value l σ = (Ok shown, σ')) ->
        ExperimentalValue__str__ l σ
        = (Ok (if String.eqb name EmptyString then shown
               else (name ++ " = ") ++ shown), σ'))
  /\ (forall name,
        ob_type o = ExperimentalValue ->
        ob_slots o !! "_name" = Some (PyStr name) ->
        ExperimentalValue__str__ l σ = (Raise TypeError, σ)).
Proof.
  intros Ho.
  assert (Hname : forall name, ob_slots o !! "_name" = Some (PyStr name) ->
            ExperimentalValue_name l σ = (Ok (PyStr name), σ)).
  { intros name Hn. apply (getattr_run l _ o _ σ Ho).
    unfold object_getattr. rewrite has_slot_name, Hn. reflexivity. }
  split; [|split].
  - intros Hty. unfold ExperimentalValue__str__.
    erewrite bind_run by apply (isinstance_Constant l o σ Ho).
    rewrite Hty. reflexivity.
  - intros name shown σ' Hn Hshown. unfold ExperimentalValue__str__.
    erewrite bind_run by apply (isinstance_Constant l o σ Ho).
    assert (Hcall : call_print_value l σ = (Ok (PyStr shown), σ')
                    /\ ob_type o <> Constant).
    { unfold call_print_value.
      erewrite bind_run
        by apply (read_object_run l (fun o => Ok (ob_type o)) o σ Ho).
      destruct Hshown as [[Hty Hp]|[Hty Hp]].
      - destruct (ob_type o); try discriminate Hty;
          (split; [erewrite bind_run by exact Hp; reflexivity|discriminate]).
      - rewrite Hty.
        split; [erewrite bind_run by exact Hp; reflexivity|discriminate]. }
    destruct Hcall as [Hcall Hne].
    rewrite bool_decide_eq_false_2 by exact Hne.
    erewrite bind_run by apply (Hname name Hn).
    erewrite bind_run by reflexivity.
    destruct name as [|c rest]; cbn [py_bool String.eqb negb].
    + erewrite bind_run by reflexivity.
      erewrite bind_run by exact Hcall. reflexivity.
    + erewrite bind_run; cycle 1.
      { erewrite bind_run by apply (Hname _ Hn).
        erewrite bind_run by reflexivity. reflexivity. }
      erewrite bind_run by exact Hcall. reflexivity.
  - intros name Hty Hn. unfold ExperimentalValue__str__.
    erewrite bind_run by apply (isinstance_Constant l o σ Ho).
    rewrite Hty. cbn [bool_decide decide_rel].
    rewrite bool_decide_eq_false_2 by discriminate.
    erewrite bind_run by apply (Hname name Hn).
    erewrite bind_run by reflexivity.
    assert (Hcall : call_print_value l σ = (Ok PyNone, σ)).
    { unfold call_print_value.
      erewrite bind_run
        by apply (read_object_run l (fun o => Ok (ob_type o)) o σ Ho).
      rewrite Hty. reflexivity. }
    destruct name as [|c rest]; cbn [py_bool String.eqb negb].
    + erewrite bind_run by reflexivity.
      erewrite bind_run by exact Hcall. reflexivity.
    + erewrite bind_run; cycle 1.
      { erewrite bind_run by apply (Hname _ Hn).
        erewrite bind_run by reflexivity. reflexivity. }
      erewrite bind_run by exact Hcall. reflexivity.
Qed.

(** X6.  After [set_print_style] with a member of [PrintStyle], a [Function]
    built without an error method can no longer be printed: the style sits
    where the error method is read, and its [.value] is no key of the
    propagated results. *)
Theorem set_print_style_breaks_Function_printing l o vals s σ :
  heap σ !! l = Some o ->
  ob_type o = Function ->
  ob_slots o !! "_values" = Some (PyDict vals) ->
  ob_slots o !! "_is_error_method_specified" = Some (PyBool false) ->
  vals !! PrintStyle_value s = None ->
  let σ' := snd (set_print_style (PyPrintStyle s) σ) in
  Function_print_value l σ'
  = (Raise (KeyError (PyStr (PrintStyle_value s))), σ').
Proof.
  intros Ho Hty Hvals Hspec Hkey. cbv zeta.
  rewrite set_print_style_run. cbn [snd].
  set (σ' := mkState _ _ _).
  assert (Ho' : heap σ' !! l = Some o) by exact Ho.
  unfold Function_print_value.
  erewrite bind_run; cycle 1.
  { apply (Function_slot_run l o _ _ σ' Ho'); [|exact Hspec].
    rewrite Hty. vm_compute. reflexivity. }
  erewrite bind_run by reflexivity.
  apply bind_raise.
  erewrite bind_run; cycle 1.
  { apply (Function_slot_run l o _ _ σ' Ho' (has_slot_values _) Hvals). }
  erewrite bind_run; cycle 1.
  { unfold get_error_method, config_getitem. subst σ'. cbn [config].
    rewrite lookup_insert_eq. reflexivity. }
  erewrite bind_run by reflexivity.
  unfold lift; simpl. rewrite Hkey. reflexivity.
Qed.

(** X16.  The constructor of [Function] takes any true value as the error
    method.  Given a non-empty string, such as the name of a method in
    place of the member of [ErrorMethod], it builds the instance, and
    every later [_print_value] raises [AttributeError]. *)
Theorem Function_with_string_method results unit name s σ0 :
  s <> EmptyString ->
  let l := fresh (dom (heap σ0)) in
  let o := mkObject Function
             (function_slots results unit name true (PyStr s)) ∅ in
  new_Function results (Some unit) (Some name) (Some (PyStr s)) σ0
    = (Ok (PyRef l), update_object l o σ0)
  /\ forall σ, heap σ !! l = Some o ->
       Function_print_value l σ = (Raise (AttributeError "value"), σ).
Proof.
  intros Hs l o. split.
  - subst l o. unfold new_Function.
    erewrite bind_run by reflexivity.
    erewrite bind_run; cycle 1.
    { rewrite (Function__init__run _ (mkObject Function ∅ ∅))
        by (reflexivity || apply heap_update_object).
      cbn [default py_bool].
      destruct s as [|c rest]; [congruence|]. reflexivity. }
    rewrite update_object_twice. unfold mret, M_ret. simpl.
    repeat f_equal.
  - clearbody l. subst o. intros σ Ho. unfold Function_print_value.
    erewrite bind_run; cycle 1.
    { apply (Function_slot_run l _ _ _ σ Ho); vm_compute; reflexivity. }
    erewrite bind_run by reflexivity.
    apply bind_raise.
    erewrite bind_run; cycle 1.
    { apply (Function_slot_run l _ _ _ σ Ho); vm_compute; reflexivity. }
    erewrite bind_run; cycle 1.
    { apply (Function_slot_run l _ _ _ σ Ho); vm_compute; reflexivity. }
    reflexivity.
Qed.

End instance_extras.

(** ** The further properties at concrete inputs *)

Section extras_examples.

Lemma set_error_method_witness :
  get_error_method (snd (set_error_method (PyErrorMethod MIN_MAX) initial_state))
  = (Ok (PyErrorMethod MIN_MAX),
     snd (set_error_method (PyErrorMethod MIN_MAX) initial_state))
  /\ set_error_method (PyStr "min_max") initial_state
     = (Ok tt, printed error_method_message initial_state).
Proof.
  destruct (set_error_method_get_error_method initial_state) as [Hset Hrefuse].
  split.
  - exact (proj1 (proj2 (Hset MIN_MAX))).
  - apply Hrefuse. intros m. discriminate.
Defined.

Lemma sig_figs_setters_on_floats_witness :
  let three_and_a_half := SFdiv prec emax (float_of_Z 7) (float_of_Z 2) in
  set_sig_figs_for_value (PyFloat three_and_a_half) initial_state
  = (Ok tt, with_sig_figs 3 VALUE
              {[ "mode" := PySigFigMode AUTOMATIC; "value" := PyInt 1 ]}
              initial_state).
Proof.
  cbv zeta.
  pose proof (sig_figs_setters_on_floats initial_state
                {[ "mode" := PySigFigMode AUTOMATIC; "value" := PyInt 1 ]})
    as T.
  destruct (T ltac:(vm_compute; reflexivity)) as [Htrunc _].
  exact (proj1 (Htrunc (SFdiv prec emax (float_of_Z 7) (float_of_Z 2)) 3
                  ltac:(vm_compute; reflexivity) ltac:(lia))).
Defined.

Lemma reset_default_configuration_witness :
  reset_default_configuration (snd (reset_default_configuration initial_state))
  = (Ok tt, snd (reset_default_configuration initial_state)).
Proof.
  exact (proj1 (proj2 (reset_default_configuration_idempotent initial_state
                         has_sig_figs_initial))).
Defined.

Lemma sig_figs_setters_last_call_wins_witness :
  sig_figs_are 2 ERROR
    (snd (set_sig_figs_for_error (PyStr "2")
            (snd (set_sig_figs_for_value (PyInt 5) initial_state)))).
Proof.
  pose proof (sig_figs_setters_last_call_wins initial_state
                {[ "mode" := PySigFigMode AUTOMATIC; "value" := PyInt 1 ]}
                (PyInt 5) (PyStr "2") 5 2) as T.
  exact (proj1 (T ltac:(vm_compute; reflexivity) eq_refl ltac:(lia)
                  ltac:(vm_compute; reflexivity) ltac:(lia))).
Defined.

Lemma set_print_style_breaks_Function_printing_witness :
  let o := mkObject Function
             (function_slots (PyDict sample_results) empty_str empty_str
                false (PyErrorMethod DERIVATIVE)) ∅ in
  let σ := snd (set_print_style (PyPrintStyle LATEX)
                  (update_object 1%positive o initial_state)) in
  @Function_print_value reference 1%positive σ
  = (Raise (KeyError (PyStr "latex")), σ).
Proof.
  cbv zeta.
  apply (@set_print_style_breaks_Function_printing reference 1%positive
           (mkObject Function
              (function_slots (PyDict sample_results) empty_str empty_str
                 false (PyErrorMethod DERIVATIVE)) ∅)
           sample_results LATEX);
    vm_compute; reflexivity.
Defined.

Lemma name_setter_witness :
  let σ := update_object 1%positive sample_infinite initial_state in
  ExperimentalValue_name
    1%positive (snd (ExperimentalValue_name_setter 1%positive (PyStr "width") σ))
  = (Ok (PyStr "width"),
     snd (ExperimentalValue_name_setter 1%positive (PyStr "width") σ))
  /\ ExperimentalValue_name_setter 1%positive (PyInt 3) σ = (Ok tt, σ).
Proof.
  cbv zeta.
  destruct (name_setter_then_getter 1%positive sample_infinite
              (update_object 1%positive sample_infinite initial_state)
              ltac:(vm_compute; reflexivity)) as [Hset Hignore].
  split.
  - destruct (Hset "width") as [Hrun Hget]. rewrite Hrun. exact Hget.
  - apply Hignore. intros s. discriminate.
Defined.

Lemma value_setter_witness :
  let σ := update_object 1%positive sample_infinite initial_state in
  MeasuredValue_value 1%positive
    (snd (MeasuredValue_value_setter 1%positive (PyInt 7) σ))
  = (Ok (PyInt 7), snd (MeasuredValue_value_setter 1%positive (PyInt 7) σ))
  /\ MeasuredValue_value_setter 1%positive (PyStr "7") σ
     = (Ok tt, printed value_error_message σ).
Proof.
  cbv zeta.
  pose proof (value_setter_then_getters 1%positive sample_infinite
                {[ RECORDED := PyTuple [PyFloat float_inf; PyInt 0] ]}
                (PyFloat float_inf) (PyInt 0)
                (update_object 1%positive sample_infinite initial_state)) as T.
  destruct (T ltac:(vm_compute; reflexivity) eq_refl eq_refl
              ltac:(vm_compute; reflexivity) ltac:(vm_compute; reflexivity))
    as [Hset Hrefuse].
  split.
  - destruct (Hset (PyInt 7) eq_refl) as (Hrun & Hget & _).
    rewrite Hrun. exact Hget.
  - exact (Hrefuse (PyStr "7") eq_refl).
Defined.

(** [m = Measurement(-2, 1, ...)]: [m.relative_error = 1.0] stores the
    uncertainty [-2.0], and [m.relative_error = 2**1024] raises
    [OverflowError] and leaves [m] as it was. *)
Lemma relative_error_setter_witness :
  let σ := update_object 1%positive sample_negative initial_state in
  MeasuredValue_error 1%positive
    (snd (MeasuredValue_relative_error_setter 1%positive
            (PyFloat (float_of_Z 1)) σ))
  = (Ok (PyFloat (float_of_Z (-2))),
     snd (MeasuredValue_relative_error_setter 1%positive
            (PyFloat (float_of_Z 1)) σ))
  /\ MeasuredValue_relative_error_setter 1%positive (PyInt (2 ^ 1024)) σ
     = (Raise OverflowError, σ).
Proof.
  cbv zeta.
  pose proof (relative_error_setter_stores_product 1%positive sample_negative
                {[ RECORDED := PyTuple [PyFloat (float_of_Z (-2));
                                        PyFloat (float_of_Z 1)] ]}
                (PyFloat (float_of_Z (-2))) (PyFloat (float_of_Z 1))
                (update_object 1%positive sample_negative initial_state)) as T.
  destruct (T ltac:(vm_compute; reflexivity) eq_refl eq_refl
              ltac:(vm_compute; reflexivity) ltac:(vm_compute; reflexivity))
    as (Hset & Hget & _).
  split.
  - rewrite (Hset (PyFloat (float_of_Z 1)) ltac:(vm_compute; reflexivity)).
    destruct (Hget (PyFloat (float_of_Z (-2)))) as [_ Herr].
    exact Herr.
  - rewrite (Hset (PyInt (2 ^ 1024)) ltac:(vm_compute; reflexivity)).
    vm_compute. reflexivity.
Defined.

(** [str()] of the sample instance with an infinite value. *)
Lemma str_of_instance_witness :
  let σ := update_object 1%positive sample_infinite initial_state in
  @ExperimentalValue__str__ reference 1%positive σ = (Ok "length = inf", σ).
Proof.
  cbv zeta.
  destruct (@str_of_instance reference 1%positive sample_infinite
              (update_object 1%positive sample_infinite initial_state)
              ltac:(vm_compute; reflexivity)) as (_ & Hshown & _).
  apply (Hshown "length" "inf" _ ltac:(vm_compute; reflexivity)).
  left. split; vm_compute; reflexivity.
Defined.

Lemma setters_never_discard_raw_data_witness :
  let σ := update_object 1%positive sample_repeated initial_state in
  let arr := PyNdarray [PyFloat (float_of_Z 1); PyFloat (float_of_Z 3)] in
  raw_data 1%positive (snd (MeasuredValue_error_setter 1%positive (PyInt 4) σ))
  = (Ok arr, snd (MeasuredValue_error_setter 1%positive (PyInt 4) σ)).
Proof.
  cbv zeta.
  destruct (setters_never_discard_raw_data 1%positive
              (PyNdarray [PyFloat (float_of_Z 1); PyFloat (float_of_Z 3)])
              (PyInt 4)
              (update_object 1%positive sample_repeated initial_state))
    as (_ & [_ Herror] & _).
  - exists sample_repeated. repeat split; vm_compute; reflexivity.
  - exact Herror.
Defined.

Lemma Measurement_overflow_witness :
  @Measurement reference [PyInt (2 ^ 1024)] (keywords "m" "length")
    initial_state
  = (Raise OverflowError, initial_state).
Proof.
  exact (proj1 (@Measurement_overflow reference (2 ^ 1024) PyNone
                  (keywords "m" "length") false initial_state
                  ltac:(vm_compute; reflexivity))).
Defined.

Lemma Measurement_then_getters_witness :
  exists l σ',
    @Measurement reference [PyInt 12; PyInt 1] (keywords "m" "length")
      initial_state = (Ok (PyRef l), σ')
    /\ MeasuredValue_value l σ' = (Ok (PyFloat (float_of_Z 12)), σ')
    /\ MeasuredValue_error l σ' = (Ok (PyFloat (float_of_Z 1)), σ')
    /\ ExperimentalValue_unit l σ' = (Ok (PyStr "m"), σ')
    /\ ExperimentalValue_name l σ' = (Ok (PyStr "length"), σ')
    /\ ExperimentalValue_unit_setter l (PyStr "cm") σ' = (Ok tt, σ').
Proof.
  exact (@Measurement_then_getters reference (PyInt 12) (PyInt 1)
           (PyFloat (float_of_Z 12)) (PyFloat (float_of_Z 1))
           (keywords "m" "length") (PyStr "m") (PyStr "length") (PyStr "cm")
           initial_state
           ltac:(vm_compute; reflexivity) ltac:(vm_compute; reflexivity)
           eq_refl eq_refl ltac:(vm_compute; reflexivity)
           ltac:(vm_compute; reflexivity)).
Defined.

Lemma raw_data_after_Measurement_witness :
  exists l σ',
    @Measurement reference [PyList [PyInt 1; PyInt 3]] (keywords "m" "length")
      initial_state = (Ok (PyRef l), σ')
    /\ raw_data l σ'
       = (Ok (PyNdarray [PyFloat (float_of_Z 1); PyFloat (float_of_Z 3)]), σ').
Proof.
  destruct (@raw_data_after_Measurement reference (keywords "m" "length")
              (PyStr "m") (PyStr "length") initial_state
              ltac:(vm_compute; reflexivity) ltac:(vm_compute; reflexivity))
    as [Harray _].
  exact (Harray (PyList [PyInt 1; PyInt 3])
           (PyNdarray [PyFloat (float_of_Z 1); PyFloat (float_of_Z 3)])
           (PyFloat (float_of_Z 2)) (PyFloat (float_of_Z 1))
           eq_refl ltac:(vm_compute; reflexivity)
           ltac:(vm_compute; reflexivity) ltac:(vm_compute; reflexivity)).
Defined.

Lemma Function_with_string_method_witness :
  let l := fresh (dom (heap initial_state)) in
  let made := new_Function (PyDict sample_results) (Some empty_str)
                (Some empty_str) (Some (PyStr "derivative")) initial_state in
  fst made = Ok (PyRef l)
  /\ @Function_print_value reference l (snd made)
     = (Raise (AttributeError "value"), snd made).
Proof.
  cbv zeta.
  destruct (@Function_with_string_method reference (PyDict sample_results)
              empty_str empty_str "derivative" initial_state
              ltac:(discriminate)) as [Hnew Hprint].
  rewrite Hnew. split; [reflexivity|].
  apply Hprint. apply heap_update_object.
Defined.

End extras_examples.
